(** * alGotrade: the OANDA pricing and order client of [trader/api_utils.go]

    A shallow embedding of the Go package [trader] and the properties its
    specification states about it.

    - Go structs are records, one module per struct so that the fields keep
      their Go names.
    - A Go [error] is represented by its text (what [err.Error()] returns).
    - A Go result pair, pointer and error, is [(option T, option error)]:
      [None] is the nil pointer, respectively the nil error.
    - A [float32] is a [spec_float] (sign, mantissa, binary exponent).
    - Go's [int] is embedded in [Z]; the package does no arithmetic on it.
    - [url.Values] and [http.Header] are [gmap string (list string)]. *)

From Stdlib Require Import ZArith String Ascii List Lia DecimalString.
From Stdlib Require Import Floats.SpecFloat.
From Stdlib Require DecimalPos DecimalZ.
From stdpp Require Import base option list gmap strings.

Local Open Scope string_scope.
Local Open Scope Z_scope.

(** ** Basic types *)

Definition error := string.
Definition float32 := spec_float.

(** The zero value of a [float32]. *)
Definition float32_zero : float32 := S754_zero false.

(** [fmt.Errorf] with a format that has no verb yields an error with that
    text. *)
Definition fmt_Errorf0 (format : string) : error := format.

(** ** The structs of the pricing side *)

(** The anonymous [struct { Price float32 }] of [Bids] and [Asks]. *)
Module Level.
Record t := mk { Price : float32 }.
End Level.

(** The anonymous element struct of [RawPricingResponse.Prices]. *)
Module RawPrice.
Record t := mk {
    Instrument : string;
    Tradeable : bool;
    Bids : list Level.t;
    Asks : list Level.t
  }.
End RawPrice.

Module RawPricingResponse.
Record t := mk {
    Time : string;
    Prices : list RawPrice.t
  }.
End RawPricingResponse.

Module Price.
Record t := mk {
    Instrument : string;
    Tradeable : bool;
    Bid : float32;
    Ask : float32
  }.
  (** The zero value, with which [make([]Price, n)] fills a slice. *)
Definition zero : t := mk "" false float32_zero float32_zero.
Definition with_Bid (p : t) (b : float32) : t :=
    mk (Instrument p) (Tradeable p) b (Ask p).
Definition with_Ask (p : t) (a : float32) : t :=
    mk (Instrument p) (Tradeable p) (Bid p) a.
End Price.

Module PricingResponse.
Record t := mk {
    Time : string;
    Prices : list Price.t
  }.
Definition with_Prices (r : t) (ps : list Price.t) : t := mk (Time r) ps.
End PricingResponse.

(** ** [parseRawResponse] *)

(** The body of [for i, rawPrice := range rawResponse.Prices], from index
    [i] on: [rest] is the part of the slice not yet visited and [response]
    the response built so far. [response.Prices[i] = price] is an update in
    place of the slice allocated before the loop. *)
Fixpoint parseRawResponse_loop (i : nat) (rest : list RawPrice.t)
    (response : PricingResponse.t) : option PricingResponse.t * option error :=
  match rest with
  | [] => (Some response, None)
  | rawPrice :: rest' =>
      let price :=
        Price.mk (RawPrice.Instrument rawPrice) (RawPrice.Tradeable rawPrice)
                 float32_zero float32_zero in
      match RawPrice.Bids rawPrice with
      | [] => (None, Some (fmt_Errorf0 "No bid prices recieved."))
      | bid0 :: _ =>
          let price := Price.with_Bid price (Level.Price bid0) in
          match RawPrice.Asks rawPrice with
          | [] => (None, Some (fmt_Errorf0 "No ask prices recieved."))
          | ask0 :: _ =>
              let price := Price.with_Ask price (Level.Price ask0) in
              parseRawResponse_loop (S i) rest'
                (PricingResponse.with_Prices response
                   (<[i := price]> (PricingResponse.Prices response)))
          end
      end
  end.

Definition parseRawResponse (rawResponse : RawPricingResponse.t)
    : option PricingResponse.t * option error :=
  let response :=
    PricingResponse.mk (RawPricingResponse.Time rawResponse)
      (replicate (length (RawPricingResponse.Prices rawResponse)) Price.zero) in
  parseRawResponse_loop 0 (RawPricingResponse.Prices rawResponse) response.

(** An instrument entry with at least one level on each side. *)
Definition has_both_sides (rp : RawPrice.t) : Prop :=
  (0 < length (RawPrice.Bids rp))%nat ∧ (0 < length (RawPrice.Asks rp))%nat.

(** The record the loop body writes for an entry, when it writes one. *)
Definition reshape (rp : RawPrice.t) : option Price.t :=
  match RawPrice.Bids rp, RawPrice.Asks rp with
  | bid0 :: _, ask0 :: _ =>
      Some (Price.mk (RawPrice.Instrument rp) (RawPrice.Tradeable rp)
                     (Level.Price bid0) (Level.Price ask0))
  | _, _ => None
  end.

(** The error the loop body returns for an entry, when it returns one. *)
Definition entry_error (rp : RawPrice.t) : option error :=
  match RawPrice.Bids rp, RawPrice.Asks rp with
  | [], _ => Some "No bid prices recieved."
  | _ :: _, [] => Some "No ask prices recieved."
  | _ :: _, _ :: _ => None
  end.

(** Replaces every instrument name of a payload. *)
Definition rename_instruments (f : string → string)
    (raw : RawPricingResponse.t) : RawPricingResponse.t :=
  RawPricingResponse.mk (RawPricingResponse.Time raw)
    (map (λ rp, RawPrice.mk (f (RawPrice.Instrument rp)) (RawPrice.Tradeable rp)
                            (RawPrice.Bids rp) (RawPrice.Asks rp))
         (RawPricingResponse.Prices raw)).

(** The first error met when the entries are examined in order. *)
Fixpoint first_error (raws : list RawPrice.t) : option error :=
  match raws with
  | [] => None
  | rp :: rest =>
      match entry_error rp with
      | Some e => Some e
      | None => first_error rest
      end
  end.

(** ** Text formatting ([fmt], [strings]) *)

(** [fmt.Sprintf("%d", n)]: decimal digits, with a minus sign for negative
    numbers. *)
Definition Sprintf_d (n : Z) : string := NilZero.string_of_int (Z.to_int n).

(** [num / den] rounded to the nearest integer, ties to the even one
    ([0 <= num], [0 < den]). *)
Definition round_half_even (num den : Z) : Z :=
  let q := num / den in
  let r := num mod den in
  if 2 * r <? den then q
  else if den <? 2 * r then q + 1
  else if Z.even q then q else q + 1.

(** [m * 2^e * 10^5] rounded to an integer: the digits [%.5f] prints. *)
Definition scaled5 (m : positive) (e : Z) : Z :=
  if 0 <=? e then Z.pos m * 2 ^ e * 100000
  else round_half_even (Z.pos m * 100000) (2 ^ (- e)).

(** Pads a digit string with zeros on the left to five characters. *)
Definition pad5 (s : string) : string :=
  String.concat "" (repeat "0" (5 - String.length s)) ++ s.

Definition fixed5 (neg : bool) (n : Z) : string :=
  (if neg then "-" else "") ++
  Sprintf_d (n / 100000) ++ "." ++ pad5 (Sprintf_d (n mod 100000)).

(** [fmt.Sprintf("%.5f", x)] for a [float32]: the exact value of [x],
    rounded to five decimals with ties to even, in positional notation. *)
Definition Sprintf_5f (x : float32) : string :=
  match x with
  | S754_nan => "NaN"
  | S754_infinity false => "+Inf"
  | S754_infinity true => "-Inf"
  | S754_zero s => fixed5 s 0
  | S754_finite s m e => fixed5 s (scaled5 m e)
  end.


(** The [float32] constant [1.2]. *)
Definition float32_1_2 : float32 := S754_finite false 10066330 (-23).

(** [strings.Join(elems, sep)]. *)
Definition strings_Join (elems : list string) (sep : string) : string :=
  String.concat sep elems.

(** [strings.Replace(s, old, new, 1)] for a non-empty [old]: the first
    occurrence of [old] in [s] is replaced, and [s] is returned unchanged
    when there is none. *)
Definition strings_Replace1 (s old new : string) : string :=
  match String.index 0 old s with
  | Some i =>
      String.substring 0 i s ++ new ++
      String.substring (i + String.length old)
                       (String.length s - (i + String.length old)) s
  | None => s
  end.



(** ** Constants *)

Definition baseURL : string := "https://api-fxpractice.oanda.com".
Definition pricingEndpoint : string := "/v3/accounts/{accountID}/pricing".
Definition orderEndpoint : string := "/v3/accounts/{accountID}/orders".

(** ** Credentials and the structs of the order side *)

Module Credentials.
Record t := mk {
    AccountID : string;
    BearerToken : string
  }.
End Credentials.

Module MarketOrder.
Record t := mk {
    Units : string;
    Instrument : string;
    PriceBound : string;
    TimeInForce : string;
    Type_ : string;
    PositionFill : string
  }.
End MarketOrder.

Module MarketOrderRequest.
Record t := mk { Order : MarketOrder.t }.
End MarketOrderRequest.

Module OrderCreateTransaction.
Record t := mk {
    AccountID : string;
    BatchID : string;
    ID : string;
    Instrument : string;
    PositionFill : string;
    Reason : string;
    Time : string;
    TimeInForce : string;
    Type_ : string;
    Units : string;
    UserID : Z
  }.
End OrderCreateTransaction.

Module TradeOpened.
Record t := mk {
    TradeID : string;
    Units : string
  }.
End TradeOpened.

Module OrderFillTransaction.
Record t := mk {
    AccountBalance : string;
    AccountID : string;
    BatchID : string;
    Financing : string;
    ID : string;
    Instrument : string;
    OrderID : string;
    Pl : string;
    Price : string;
    Reason : string;
    Time : string;
    TradeOpened : TradeOpened.t;
    Type_ : string;
    Units : string;
    UserID : Z
  }.
End OrderFillTransaction.

Module OrderResponse.
Record t := mk {
    LastTransactionID : string;
    OrderCreateTransaction : OrderCreateTransaction.t;
    OrderFillTransaction : OrderFillTransaction.t;
    RelatedTransactionIDs : list string
  }.
End OrderResponse.

(** ** HTTP requests and responses ([net/http], [net/url]) *)

(** [url.Values] and [http.Header]: a key maps to the list of its values. *)
Abbreviation Values := (gmap string (list string)).

(** [v.Add(key, value)]: appends [value] to the values of [key]. *)
Definition Values_Add (v : Values) (key value : string) : Values :=
  <[key := (default [] (v !! key) ++ [value])%list]> v.

(** [h.Add] and [h.Set] of [http.Header]. Both keys the package uses,
    [Authorization] and [Content-Type], are in canonical form already. *)
Definition Header_Add (h : Values) (key value : string) : Values :=
  <[key := (default [] (h !! key) ++ [value])%list]> h.
Definition Header_Set (h : Values) (key value : string) : Values :=
  <[key := [value]]> h.

(** A parsed URL: the package reads and writes [RawQuery] only; [Base] is
    the rest (scheme, host, path). *)
Module URL.
Record t := mk {
    Base : string;
    RawQuery : string
  }.
Definition with_RawQuery (u : t) (q : string) : t := mk (Base u) q.
End URL.

Module Request.
Record t := mk {
    Method : string;
    URL : URL.t;
    Header : Values;
    Body : option string
  }.
Definition with_Header (r : t) (h : Values) : t :=
    mk (Method r) (URL r) h (Body r).
Definition with_URL (r : t) (u : URL.t) : t :=
    mk (Method r) u (Header r) (Body r).
End Request.

(** What [io.ReadAll(resp.Body)] returns. *)
Inductive read_result :=
| ReadOk (body : string)
| ReadErr (err : error).

Module Response.
Record t := mk {
    StatusCode : Z;
    Body : read_result
  }.
End Response.

(** What opening and decoding [config.json] yields. *)
Inductive config_outcome :=
| OpenFails (err : error)
| DecodeFails (err : error)
| Decoded (creds : Credentials.t).

(** ** Events, the runtime and the monad of the package *)

(** What a run does, in order. [Call_getPrices] and [Call_placeMarketOrder]
    mark the entry into the two API functions; the other events are the
    interactions with the outside, with what the outside answered. *)
Inductive event :=
| Call_getPrices (instruments : list string)
| Call_placeMarketOrder (units : Z) (instrument : string) (priceBound : float32)
| Read_config (r : config_outcome)
| Do (req : Request.t) (r : Response.t + error)
| Println (s : string)
| Dump_prices (p : option PricingResponse.t)
| Dump_order (o : option OrderResponse.t)
| Log_Printf (s : string)
| Log_Fatal (s : string).

(** The library functions the package calls and does not define, and the
    outside world. The world answers as a function of everything that
    happened before. *)
Module Runtime.
Record t := mk {
    url_Parse : string → URL.t + error;
    url_ParseQuery : string → Values;
    Values_Encode : Values → string;
    json_Marshal : MarketOrderRequest.t → string + error;
    json_Unmarshal_RawPricingResponse : string → RawPricingResponse.t + error;
    json_Unmarshal_OrderResponse : string → OrderResponse.t + error;
    config_json : list event → config_outcome;
    client_Do : list event → Request.t → Response.t + error
  }.
End Runtime.

(** How a computation ends: it returns, the process exits ([log.Fatal]), or
    the goroutine panics. *)
Inductive outcome (A : Type) :=
| Returns (a : A)
| Exits (status : Z)
| Panics (msg : string).
Arguments Returns {A} a.
Arguments Exits {A} status.
Arguments Panics {A} msg.

(** A computation maps the history to its outcome and to the events it
    added. *)
Definition M (A : Type) : Type := list event → outcome A * list event.

Definition ret {A} (a : A) : M A := λ _, (Returns a, []).

Definition bind {A B} (m : M A) (f : A → M B) : M B :=
  λ h,
    match m h with
    | (Returns a, es) => let '(o, es') := f a (h ++ es)%list in (o, (es ++ es')%list)
    | (Exits c, es) => (Exits c, es)
    | (Panics s, es) => (Panics s, es)
    end.

Definition emit (e : event) : M unit := λ _, (Returns tt, [e]).
Definition exit {A} (status : Z) : M A := λ _, (Exits status, []).
Definition panic {A} (msg : string) : M A := λ _, (Panics msg, []).

Declare Scope go_scope.
Delimit Scope go_scope with go.
Notation "'let*' x ':=' m 'in' k" := (bind m (λ x, k))
  (at level 10, x name, m at level 100, k at level 200) : go_scope.
Notation "'let*' ' p ':=' m 'in' k" :=
  (bind m (λ x, match x with p => k end))
  (at level 10, p pattern, m at level 100, k at level 200) : go_scope.
Notation "m ;;; k" := (bind m (λ _, k))
  (at level 100, right associativity) : go_scope.

(** [log.Fatal] and [log.Fatalf]: the message, then [os.Exit(1)]. *)
Definition log_Fatal {A} (msg : string) : M A :=
  (emit (Log_Fatal msg) ;;; exit 1)%go.

(** [http.NewRequest(method, url, body)] for the methods [GET] and [POST]:
    it fails when the URL does not parse, and the request has no header at
    first. *)
Definition http_NewRequest (rt : Runtime.t) (method url : string)
    (body : option string) : Request.t + error :=
  match Runtime.url_Parse rt url with
  | inl u => inl (Request.mk method u ∅ body)
  | inr err => inr err
  end.

Section Package.
Context (rt : Runtime.t).
Local Open Scope go_scope.

Definition read_config : M config_outcome :=
    λ h, let r := Runtime.config_json rt h in (Returns r, [Read_config r]).

Definition do_request (req : Request.t) : M (Response.t + error) :=
    λ h, let r := Runtime.client_Do rt h req in (Returns r, [Do req r]).

Definition getCreds : M Credentials.t :=
    let* r := read_config in
    match r with
    | OpenFails err => log_Fatal err
    | DecodeFails err => log_Fatal err
    | Decoded creds => ret creds
    end.

Definition getPrices (instruments : list string)
      : M (option PricingResponse.t * option error) :=
    emit (Call_getPrices instruments) ;;;
    let* creds := getCreds in
    let url := strings_Replace1 (baseURL ++ pricingEndpoint) "{accountID}"
                 (Credentials.AccountID creds) in
    match http_NewRequest rt "GET" url None with
    | inr err => ret (None, Some err)
    | inl req =>
        let req := Request.with_Header req
          (Header_Add (Request.Header req) "Authorization"
             ("Bearer " ++ Credentials.BearerToken creds)) in
        let q := Runtime.url_ParseQuery rt (URL.RawQuery (Request.URL req)) in
        let q := Values_Add q "instruments" (strings_Join instruments ",") in
        let req := Request.with_URL req
          (URL.with_RawQuery (Request.URL req) (Runtime.Values_Encode rt q)) in
        let* r := do_request req in
        match r with
        | inr err => ret (None, Some err)
        | inl resp =>
            match Response.Body resp with
            | ReadErr err => ret (None, Some err)
            | ReadOk body =>
                if negb (Response.StatusCode resp =? 200) then
                  ret (None,
                       Some (Sprintf_d (Response.StatusCode resp) ++
                             " response code received, Prices API request not working as expected"))
                else
                  match Runtime.json_Unmarshal_RawPricingResponse rt body with
                  | inr err => ret (None, Some err)
                  | inl rawResponse =>
                      match parseRawResponse rawResponse with
                      | (_, Some err) => ret (None, Some err)
                      | (response, None) => ret (response, None)
                      end
                  end
            end
        end
    end.

Definition placeMarketOrder (units : Z) (instrument : string)
      (priceBound : float32) : M (option OrderResponse.t * option error) :=
    emit (Call_placeMarketOrder units instrument priceBound) ;;;
    let* creds := getCreds in
    let url := strings_Replace1 (baseURL ++ orderEndpoint) "{accountID}"
                 (Credentials.AccountID creds) in
    let orderRequest :=
      MarketOrderRequest.mk
        (MarketOrder.mk (Sprintf_d units) instrument (Sprintf_5f priceBound)
                        "FOK" "MARKET" "DEFAULT") in
    match Runtime.json_Marshal rt orderRequest with
    | inr err => ret (None, Some err)
    | inl jsonBody =>
        match http_NewRequest rt "POST" url (Some jsonBody) with
        | inr err => ret (None, Some err)
        | inl req =>
            let req := Request.with_Header req
              (Header_Set (Request.Header req) "Content-Type" "application/json") in
            let req := Request.with_Header req
              (Header_Set (Request.Header req) "Authorization"
                 ("Bearer " ++ Credentials.BearerToken creds)) in
            let* r := do_request req in
            match r with
            | inr err => ret (None, Some err)
            | inl resp =>
                match Response.Body resp with
                | ReadErr err => ret (None, Some err)
                | ReadOk body =>
                    if negb (Response.StatusCode resp =? 201) then
                      ret (None,
                           Some ("unexpected status code: " ++
                                 Sprintf_d (Response.StatusCode resp) ++
                                 ", body: " ++ body))
                    else
                      match Runtime.json_Unmarshal_OrderResponse rt body with
                      | inr err => ret (None, Some err)
                      | inl orderResponse => ret (Some orderResponse, None)
                      end
                end
            end
        end
    end.

Definition EntryPoint : M unit :=
    let instruments := ["GBP_USD"; "EUR_GBP"; "GBP_JPY"] in
    let* '(pricesResponse, err) := getPrices instruments in
    match err with
    | Some e => log_Fatal ("Error retrieving prices: " ++ e)
    | None =>
        emit (Println "Prices retrieved successfully.") ;;;
        emit (Dump_prices pricesResponse)
    end ;;;
    match pricesResponse with
    | None => panic "invalid memory address or nil pointer dereference"
    | Some response =>
        match PricingResponse.Prices response !! 0%nat with
        | None => panic "index out of range"
        | Some price0 =>
            if Price.Tradeable price0 then
              let* '(orderResponse, err) :=
                 placeMarketOrder 1 "GBP_USD" (Price.Ask price0) in
              match err with
              | Some e => emit (Log_Printf ("Error placing market order: " ++ e))
              | None =>
                  emit (Println "Market order placed successfully.") ;;;
                  emit (Dump_order orderResponse)
              end
            else
              emit (Println "Error executing market order! Instrument currently not tradeable.")
        end
    end.
End Package.

(** ** What a trace shows *)

(** The calls of [placeMarketOrder], with their arguments. *)
Fixpoint orders_attempted (es : list event) : list (Z * string * float32) :=
  match es with
  | [] => []
  | Call_placeMarketOrder units instrument priceBound :: es' =>
      (units, instrument, priceBound) :: orders_attempted es'
  | _ :: es' => orders_attempted es'
  end.

(** The calls of [getPrices], with their argument. *)
Fixpoint prices_fetched (es : list event) : list (list string) :=
  match es with
  | [] => []
  | Call_getPrices instruments :: es' => instruments :: prices_fetched es'
  | _ :: es' => prices_fetched es'
  end.

(** The outcomes of the reads of [config.json]. *)
Fixpoint config_reads (es : list event) : list config_outcome :=
  match es with
  | [] => []
  | Read_config r :: es' => r :: config_reads es'
  | _ :: es' => config_reads es'
  end.

(** The requests handed to the HTTP client. *)
Fixpoint requests_sent (es : list event) : list Request.t :=
  match es with
  | [] => []
  | Do req _ :: es' => req :: requests_sent es'
  | _ :: es' => requests_sent es'
  end.

(** The requests with method [POST] handed to the HTTP client. *)
Definition orders_sent (es : list event) : list Request.t :=
  List.filter (λ req, String.eqb (Request.Method req) "POST") (requests_sent es).

(** Events among which there is no call of an API function, no read of the
    configuration file and no request. *)
Definition quiet (es : list event) : Prop :=
  orders_attempted es = [] ∧ prices_fetched es = [] ∧
  config_reads es = [] ∧ requests_sent es = [].

(** The order [placeMarketOrder] builds from its arguments. *)
Definition order_of (units : Z) (instrument : string) (priceBound : float32)
    : MarketOrderRequest.t :=
  MarketOrderRequest.mk
    (MarketOrder.mk (Sprintf_d units) instrument (Sprintf_5f priceBound)
                    "FOK" "MARKET" "DEFAULT").

(** The URLs of the two endpoints for an account. *)
Definition pricing_url (creds : Credentials.t) : string :=
  strings_Replace1 (baseURL ++ pricingEndpoint) "{accountID}"
    (Credentials.AccountID creds).
Definition order_url (creds : Credentials.t) : string :=
  strings_Replace1 (baseURL ++ orderEndpoint) "{accountID}"
    (Credentials.AccountID creds).

(** The request [getPrices] hands to the client, for credentials [creds],
    a parsed URL [u] and a list of instruments. *)
Definition pricing_request (rt : Runtime.t) (creds : Credentials.t)
    (u : URL.t) (instruments : list string) : Request.t :=
  Request.mk "GET"
    (URL.with_RawQuery u
       (Runtime.Values_Encode rt
          (Values_Add (Runtime.url_ParseQuery rt (URL.RawQuery u))
             "instruments" (strings_Join instruments ","))))
    (Header_Add ∅ "Authorization" ("Bearer " ++ Credentials.BearerToken creds))
    None.

(** The error texts of the two status checks. *)
Definition prices_status_error (status : Z) : error :=
  Sprintf_d status ++
  " response code received, Prices API request not working as expected".
Definition order_status_error (status : Z) (body : string) : error :=
  "unexpected status code: " ++ Sprintf_d status ++ ", body: " ++ body.

(** What [getPrices] returns once the client has answered. *)
Definition prices_result (rt : Runtime.t) (reply : Response.t + error)
    : option PricingResponse.t * option error :=
  match reply with
  | inr err => (None, Some err)
  | inl resp =>
      match Response.Body resp with
      | ReadErr err => (None, Some err)
      | ReadOk body =>
          if negb (Response.StatusCode resp =? 200) then
            (None, Some (prices_status_error (Response.StatusCode resp)))
          else
            match Runtime.json_Unmarshal_RawPricingResponse rt body with
            | inr err => (None, Some err)
            | inl rawResponse =>
                match parseRawResponse rawResponse with
                | (_, Some err) => (None, Some err)
                | (response, None) => (response, None)
                end
            end
      end
  end.

(** What [placeMarketOrder] returns once the client has answered. *)
Definition order_result (rt : Runtime.t) (reply : Response.t + error)
    : option OrderResponse.t * option error :=
  match reply with
  | inr err => (None, Some err)
  | inl resp =>
      match Response.Body resp with
      | ReadErr err => (None, Some err)
      | ReadOk body =>
          if negb (Response.StatusCode resp =? 201) then
            (None, Some (order_status_error (Response.StatusCode resp) body))
          else
            match Runtime.json_Unmarshal_OrderResponse rt body with
            | inr err => (None, Some err)
            | inl orderResponse => (Some orderResponse, None)
            end
      end
  end.

(** The request [placeMarketOrder] hands to the client, for credentials
    [creds], a parsed URL [u] and a serialized order. *)
Definition order_request (creds : Credentials.t) (u : URL.t)
    (jsonBody : string) : Request.t :=
  Request.mk "POST" u
    (Header_Set (Header_Set ∅ "Content-Type" "application/json")
       "Authorization" ("Bearer " ++ Credentials.BearerToken creds))
    (Some jsonBody).

(** The first lines of the driver's output after a successful fetch. *)
Definition fetched_output (response : PricingResponse.t) : list event :=
  [Println "Prices retrieved successfully."; Dump_prices (Some response)].

(** ** Example runs *)

(** Stand-ins for the library, for the example runs only: a URL parses to
    itself with an empty query, and the encoders print the fields one after
    the other. *)
Definition demo_Encode (q : Values) : string :=
  String.concat "&"
    (map (λ kv : string * list string,
            fst kv ++ "=" ++ String.concat "," (snd kv))
         (map_to_list q)).

Definition demo_Marshal (r : MarketOrderRequest.t) : string + error :=
  let o := MarketOrderRequest.Order r in
  inl (String.concat " "
         [MarketOrder.Units o; MarketOrder.Instrument o;
          MarketOrder.PriceBound o; MarketOrder.TimeInForce o;
          MarketOrder.Type_ o; MarketOrder.PositionFill o]).

Definition demo_creds : Credentials.t := Credentials.mk "101-004" "secret".

Definition demo_order_response : OrderResponse.t :=
  OrderResponse.mk "7"
    (OrderCreateTransaction.mk "101-004" "6" "6" "GBP_USD" "DEFAULT"
       "CLIENT_ORDER" "t" "FOK" "MARKET_ORDER" "1" 1)
    (OrderFillTransaction.mk "1000" "101-004" "6" "0" "7" "GBP_USD" "6" "0"
       "1.27325" "MARKET_ORDER" "t" (TradeOpened.mk "7" "1") "ORDER_FILL" "1" 1)
    ["6"; "7"].

(** A runtime whose configuration file decodes to [demo_creds], whose
    pricing body decodes to [payload], and whose server answers a [GET]
    with [pricing_reply] and anything else with [order_reply]. *)
Definition demo_runtime (payload : RawPricingResponse.t)
    (pricing_reply order_reply : Response.t + error) : Runtime.t :=
  Runtime.mk
    (λ s, inl (URL.mk s ""))
    (λ _, ∅)
    demo_Encode
    demo_Marshal
    (λ _, inl payload)
    (λ _, inl demo_order_response)
    (λ _, Decoded demo_creds)
    (λ _ req, if String.eqb (Request.Method req) "GET"
              then pricing_reply else order_reply).

Definition demo_level (m : positive) : Level.t :=
  Level.mk (S754_finite false m (-23)).

(** Three instruments with one level a side; the first is [EUR_GBP], with
    the given tradeable flag. *)
Definition demo_payload (tradeable : bool) : RawPricingResponse.t :=
  RawPricingResponse.mk "2024-01-01T00:00:00Z"
    [RawPrice.mk "EUR_GBP" tradeable [demo_level 7130317] [demo_level 7131156];
     RawPrice.mk "GBP_USD" true [demo_level 10680420; demo_level 10680000]
                                [demo_level 10681260];
     RawPrice.mk "GBP_JPY" false [demo_level 12000000] [demo_level 12000100]].

(** A payload whose second instrument has no bid and no ask. *)
Definition demo_payload_empty_side : RawPricingResponse.t :=
  RawPricingResponse.mk "2024-01-01T00:00:00Z"
    [RawPrice.mk "GBP_USD" true [demo_level 10680420] [demo_level 10681260];
     RawPrice.mk "EUR_GBP" true [] [];
     RawPrice.mk "GBP_JPY" true [] [demo_level 12000100]].

Definition ok_reply (status : Z) (body : string) : Response.t + error :=
  inl (Response.mk status (ReadOk body)).

(** A reply whose status line arrived and whose body could not be read. *)
Definition broken_reply (status : Z) : Response.t + error :=
  inl (Response.mk status (ReadErr "unexpected EOF")).

(** The pricing call succeeds and the first instrument is tradeable. *)
Definition demo_runtime_tradeable : Runtime.t :=
  demo_runtime (demo_payload true) (ok_reply 200 "prices") (ok_reply 201 "order").

(** The pricing call succeeds and the first instrument is not tradeable. *)
Definition demo_runtime_closed : Runtime.t :=
  demo_runtime (demo_payload false) (ok_reply 200 "prices") (ok_reply 201 "order").

(** The server answers both calls with status 500 and a body. *)
Definition demo_runtime_500 : Runtime.t :=
  demo_runtime (demo_payload true) (ok_reply 500 "oops") (ok_reply 500 "oops").


Definition demo_instruments : list string := ["GBP_USD"; "EUR_GBP"; "GBP_JPY"].

(** ** Further views and example runs *)

(** The payload with only the first level of each side kept. *)
Definition top_of_book (raw : RawPricingResponse.t) : RawPricingResponse.t :=
  RawPricingResponse.mk (RawPricingResponse.Time raw)
    (map (λ rp, RawPrice.mk (RawPrice.Instrument rp) (RawPrice.Tradeable rp)
                            (take 1 (RawPrice.Bids rp)) (take 1 (RawPrice.Asks rp)))
         (RawPricingResponse.Prices raw)).

(** A configuration read that did not yield credentials, and its error. *)
Definition config_failure (r : config_outcome) : option error :=
  match r with
  | OpenFails err => Some err
  | DecodeFails err => Some err
  | Decoded _ => None
  end.

(** A payload without any instrument. *)
Definition demo_payload_no_prices : RawPricingResponse.t :=
  RawPricingResponse.mk "2024-01-01T00:00:00Z" [].

Definition demo_runtime_no_prices : Runtime.t :=
  demo_runtime demo_payload_no_prices (ok_reply 200 "prices") (ok_reply 201 "order").

(** The pricing body decodes to a payload whose second instrument has no
    level. *)
Definition demo_runtime_empty_side : Runtime.t :=
  demo_runtime demo_payload_empty_side (ok_reply 200 "prices") (ok_reply 201 "order").

(** The server rejects the order with status 400. *)
Definition demo_runtime_order_rejected : Runtime.t :=
  demo_runtime (demo_payload true) (ok_reply 200 "prices") (ok_reply 400 "rejected").

(** No connection: the client returns an error for every request. *)
Definition demo_runtime_offline : Runtime.t :=
  demo_runtime (demo_payload true) (inr "connection refused") (inr "connection refused").

(** The order's body cannot be read, although its status is 201. *)
Definition demo_runtime_order_cut : Runtime.t :=
  demo_runtime (demo_payload true) (ok_reply 200 "prices") (broken_reply 201).

(** [config.json] is missing. *)
Definition demo_runtime_no_config : Runtime.t :=
  Runtime.mk
    (λ s, inl (URL.mk s ""))
    (λ _, ∅)
    demo_Encode
    demo_Marshal
    (λ _, inl (demo_payload true))
    (λ _, inl demo_order_response)
    (λ _, OpenFails "open config.json: no such file or directory")
    (λ _ _, ok_reply 200 "prices").

(** [config.json] is there for the pricing call and gone for the order. *)
Definition demo_runtime_config_removed : Runtime.t :=
  Runtime.mk
    (λ s, inl (URL.mk s ""))
    (λ _, ∅)
    demo_Encode
    demo_Marshal
    (λ _, inl (demo_payload true))
    (λ _, inl demo_order_response)
    (λ h, match config_reads h with
          | [] => Decoded demo_creds
          | _ :: _ => OpenFails "open config.json: no such file or directory"
          end)
    (λ _ _, ok_reply 200 "prices").

(** The account identifier makes the URL unparsable, and the bodies do not
    decode. *)
Definition demo_runtime_bad_url : Runtime.t :=
  Runtime.mk
    (λ _, inr "invalid control character in URL")
    (λ _, ∅)
    demo_Encode
    demo_Marshal
    (λ _, inr "unexpected end of JSON input")
    (λ _, inr "unexpected end of JSON input")
    (λ _, Decoded demo_creds)
    (λ _ _, ok_reply 200 "prices").

(** The bodies do not decode. *)
Definition demo_runtime_bad_json : Runtime.t :=
  Runtime.mk
    (λ s, inl (URL.mk s ""))
    (λ _, ∅)
    demo_Encode
    demo_Marshal
    (λ _, inr "unexpected end of JSON input")
    (λ _, inr "unexpected end of JSON input")
    (λ _, Decoded demo_creds)
    (λ _ req, if String.eqb (Request.Method req) "GET"
              then ok_reply 200 "" else ok_reply 201 "").

(** The order does not serialize. *)
Definition demo_runtime_bad_marshal : Runtime.t :=
  Runtime.mk
    (λ s, inl (URL.mk s ""))
    (λ _, ∅)
    demo_Encode
    (λ _, inr "json: unsupported value")
    (λ _, inl (demo_payload true))
    (λ _, inl demo_order_response)
    (λ _, Decoded demo_creds)
    (λ _ _, ok_reply 200 "prices").

(** The first price record of the example payload. *)
Definition demo_price0 (tradeable : bool) : Price.t :=
  Price.mk "EUR_GBP" tradeable (S754_finite false 7130317 (-23))
                               (S754_finite false 7131156 (-23)).

(** The response [parseRawResponse] builds from the example payload. *)
Definition demo_response (tradeable : bool) : PricingResponse.t :=
  PricingResponse.mk "2024-01-01T00:00:00Z"
    [demo_price0 tradeable;
     Price.mk "GBP_USD" true (S754_finite false 10680420 (-23))
                             (S754_finite false 10681260 (-23));
     Price.mk "GBP_JPY" false (S754_finite false 12000000 (-23))
                              (S754_finite false 12000100 (-23))].

(** The three instruments of the driver. *)
Definition driver_instruments : list string := ["GBP_USD"; "EUR_GBP"; "GBP_JPY"].

(** The events of a driver run up to the report of a successful fetch. *)
Definition fetched_trace (creds : Credentials.t) (req : Request.t)
    (reply : Response.t + error) (response : PricingResponse.t) : list event :=
  [Call_getPrices driver_instruments; Read_config (Decoded creds); Do req reply;
   Println "Prices retrieved successfully."; Dump_prices (Some response)].

(** The runs of the driver: how each ends and what it did, in order. *)
Inductive driver_run (rt : Runtime.t) : outcome unit * list event → Prop :=
| run_no_credentials r err :
    config_failure r = Some err →
    driver_run rt
      (Exits 1, [Call_getPrices driver_instruments; Read_config r; Log_Fatal err])
| run_pricing_not_sent creds err :
    driver_run rt
      (Exits 1,
       [Call_getPrices driver_instruments; Read_config (Decoded creds);
        Log_Fatal ("Error retrieving prices: " ++ err)])
| run_pricing_failed creds req reply err :
    Request.Method req = "GET" →
    prices_result rt reply = (None, Some err) →
    driver_run rt
      (Exits 1,
       [Call_getPrices driver_instruments; Read_config (Decoded creds);
        Do req reply; Log_Fatal ("Error retrieving prices: " ++ err)])
| run_no_prices creds req reply response :
    Request.Method req = "GET" →
    prices_result rt reply = (Some response, None) →
    PricingResponse.Prices response = [] →
    driver_run rt
      (Panics "index out of range", fetched_trace creds req reply response)
| run_not_tradeable creds req reply response price0 rest :
    Request.Method req = "GET" →
    prices_result rt reply = (Some response, None) →
    PricingResponse.Prices response = price0 :: rest →
    Price.Tradeable price0 = false →
    driver_run rt
      (Returns tt,
       (fetched_trace creds req reply response ++
        [Println "Error executing market order! Instrument currently not tradeable."])%list)
| run_order_no_credentials creds req reply response price0 rest r err :
    Request.Method req = "GET" →
    prices_result rt reply = (Some response, None) →
    PricingResponse.Prices response = price0 :: rest →
    Price.Tradeable price0 = true →
    config_failure r = Some err →
    driver_run rt
      (Exits 1,
       (fetched_trace creds req reply response ++
        [Call_placeMarketOrder 1 "GBP_USD" (Price.Ask price0);
         Read_config r; Log_Fatal err])%list)
| run_order_not_sent creds req reply response price0 rest creds' err :
    Request.Method req = "GET" →
    prices_result rt reply = (Some response, None) →
    PricingResponse.Prices response = price0 :: rest →
    Price.Tradeable price0 = true →
    driver_run rt
      (Returns tt,
       (fetched_trace creds req reply response ++
        [Call_placeMarketOrder 1 "GBP_USD" (Price.Ask price0);
         Read_config (Decoded creds');
         Log_Printf ("Error placing market order: " ++ err)])%list)
| run_order_failed creds req reply response price0 rest creds' req' reply' err :
    Request.Method req = "GET" →
    prices_result rt reply = (Some response, None) →
    PricingResponse.Prices response = price0 :: rest →
    Price.Tradeable price0 = true →
    Request.Method req' = "POST" →
    order_result rt reply' = (None, Some err) →
    driver_run rt
      (Returns tt,
       (fetched_trace creds req reply response ++
        [Call_placeMarketOrder 1 "GBP_USD" (Price.Ask price0);
         Read_config (Decoded creds'); Do req' reply';
         Log_Printf ("Error placing market order: " ++ err)])%list)
| run_order_placed creds req reply response price0 rest creds' req' reply' o :
    Request.Method req = "GET" →
    prices_result rt reply = (Some response, None) →
    PricingResponse.Prices response = price0 :: rest →
    Price.Tradeable price0 = true →
    Request.Method req' = "POST" →
    order_result rt reply' = (Some o, None) →
    driver_run rt
      (Returns tt,
       (fetched_trace creds req reply response ++
        [Call_placeMarketOrder 1 "GBP_USD" (Price.Ask price0);
         Read_config (Decoded creds'); Do req' reply';
         Println "Market order placed successfully.";
         Dump_order (Some o)])%list).

(** * Properties *)

(** ** The reshaping loop *)

Lemma entry_error_None (rp : RawPrice.t) :
  has_both_sides rp → entry_error rp = None.
Proof.
  intros [Hb Ha]. unfold entry_error.
  destruct (RawPrice.Bids rp); [simpl in Hb; lia|].
  destruct (RawPrice.Asks rp); [simpl in Ha; lia|]. reflexivity.
Qed.

Lemma entry_error_Some (rp : RawPrice.t) :
  RawPrice.Bids rp = [] ∨ RawPrice.Asks rp = [] →
  entry_error rp =
    Some (match RawPrice.Bids rp with
          | [] => "No bid prices recieved."
          | _ :: _ => "No ask prices recieved."
          end).
Proof.
  unfold entry_error. intros [H | H]; rewrite H; [reflexivity|].
  destruct (RawPrice.Bids rp); reflexivity.
Qed.

Lemma first_error_app (pre : list RawPrice.t) (rp : RawPrice.t)
    (post : list RawPrice.t) :
  Forall has_both_sides pre →
  first_error (pre ++ rp :: post)%list =
    match entry_error rp with
    | Some e => Some e
    | None => first_error post
    end.
Proof.
  induction 1 as [|x pre Hx _ IH]; [reflexivity|].
  simpl. rewrite (entry_error_None x Hx). exact IH.
Qed.

Lemma first_error_Exists (raws : list RawPrice.t) :
  Exists (λ rp, RawPrice.Bids rp = [] ∨ RawPrice.Asks rp = []) raws →
  ∃ e, first_error raws = Some e.
Proof.
  induction 1 as [rp rest H | rp rest _ IH]; simpl.
  - rewrite (entry_error_Some rp H). eauto.
  - destruct (entry_error rp); eauto.
Qed.

(** The error of the loop is the first error of the entries, whatever the
    index and the response built so far; without one, a response comes
    back. *)
Lemma parseRawResponse_loop_error (rest : list RawPrice.t) :
  ∀ i response,
    match first_error rest with
    | Some e => parseRawResponse_loop i rest response = (None, Some e)
    | None => ∃ r, parseRawResponse_loop i rest response = (Some r, None)
    end.
Proof.
  induction rest as [|rp rest IH]; intros i response; simpl.
  - eauto.
  - unfold entry_error.
    destruct (RawPrice.Bids rp); [reflexivity|].
    destruct (RawPrice.Asks rp); [reflexivity|].
    apply IH.
Qed.

Lemma first_error_rename (f : string → string) (raws : list RawPrice.t) :
  first_error
    (map (λ rp, RawPrice.mk (f (RawPrice.Instrument rp)) (RawPrice.Tradeable rp)
                            (RawPrice.Bids rp) (RawPrice.Asks rp)) raws)
  = first_error raws.
Proof.
  induction raws as [|rp rest IH]; [reflexivity|].
  simpl. unfold entry_error. simpl. rewrite IH.
  destruct (RawPrice.Bids rp), (RawPrice.Asks rp); reflexivity.
Qed.

(** Loop invariant: the slots below [i] are written, those from [i] on are
    not yet, and the loop fills them with the reshaped entries in order. *)
Lemma parseRawResponse_loop_fills (rest : list RawPrice.t) :
  ∀ i time (written unwritten : list Price.t),
    length written = i →
    length unwritten = length rest →
    Forall has_both_sides rest →
    ∃ out,
      Forall2 (λ rp p, reshape rp = Some p) rest out ∧
      parseRawResponse_loop i rest (PricingResponse.mk time (written ++ unwritten))
      = (Some (PricingResponse.mk time (written ++ out)), None).
Proof.
  induction rest as [|rp rest IH]; intros i time written unwritten Hi Hlen Hok.
  - destruct unwritten; [|discriminate]. exists []. split; [constructor|reflexivity].
  - destruct unwritten as [|slot unwritten]; [discriminate|].
    inversion Hok as [|? ? [Hb Ha] Hrest]; subst.
    simpl. unfold PricingResponse.with_Prices. simpl.
    destruct (RawPrice.Bids rp) as [|bid0 bids] eqn:Eb; [simpl in Hb; lia|].
    destruct (RawPrice.Asks rp) as [|ask0 asks] eqn:Ea; [simpl in Ha; lia|].
    set (price := Price.with_Ask _ _).
    rewrite insert_app_r_alt by lia. rewrite Nat.sub_diag. simpl.
    destruct (IH (S (length written)) time (written ++ [price])%list unwritten)
      as [out [Hout Hrun]].
    + rewrite length_app. simpl. lia.
    + simpl in Hlen. lia.
    + exact Hrest.
    + exists (price :: out). split.
      * constructor; [|exact Hout]. unfold reshape. rewrite Eb, Ea. reflexivity.
      * rewrite <- !app_assoc in Hrun. exact Hrun.
Qed.

(** C1. For every raw pricing payload in which every instrument entry has at
    least one bid level and at least one ask level, [parseRawResponse]
    succeeds and returns one price record per input record, in the same
    order: the record at each index has the first bid level's price as
    [Bid], the first ask level's price as [Ask], and the entry's
    [Instrument] and [Tradeable]; [Time] is copied. *)
Theorem parseRawResponse_reshapes (raw : RawPricingResponse.t) :
  Forall has_both_sides (RawPricingResponse.Prices raw) →
  ∃ response,
    parseRawResponse raw = (Some response, None) ∧
    PricingResponse.Time response = RawPricingResponse.Time raw ∧
    length (PricingResponse.Prices response)
      = length (RawPricingResponse.Prices raw) ∧
    ∀ (i : nat) (rp : RawPrice.t),
      RawPricingResponse.Prices raw !! i = Some rp →
      ∃ price bid0 ask0,
        PricingResponse.Prices response !! i = Some price ∧
        RawPrice.Bids rp !! 0%nat = Some bid0 ∧
        RawPrice.Asks rp !! 0%nat = Some ask0 ∧
        Price.Bid price = Level.Price bid0 ∧
        Price.Ask price = Level.Price ask0 ∧
        Price.Instrument price = RawPrice.Instrument rp ∧
        Price.Tradeable price = RawPrice.Tradeable rp.
Proof.
  intros Hok. unfold parseRawResponse.
  destruct (parseRawResponse_loop_fills (RawPricingResponse.Prices raw) 0
              (RawPricingResponse.Time raw) []
              (replicate (length (RawPricingResponse.Prices raw)) Price.zero))
    as [out [Hout Hrun]];
    [reflexivity | apply length_replicate | exact Hok |].
  simpl in Hrun. exists (PricingResponse.mk (RawPricingResponse.Time raw) out).
  split; [exact Hrun|]. split; [reflexivity|].
  split; [symmetry; exact (Forall2_length _ _ _ Hout)|].
  intros i rp Hi. simpl.
  destruct (Forall2_lookup_l _ _ _ _ _ Hout Hi) as [price [Hp Hre]].
  unfold reshape in Hre.
  destruct (RawPrice.Bids rp) as [|bid0 bids]; [discriminate|].
  destruct (RawPrice.Asks rp) as [|ask0 asks]; [discriminate|].
  injection Hre as <-. eexists; exists bid0, ask0. simpl.
  split; [exact Hp|]. repeat split.
Qed.

Lemma parseRawResponse_reshapes_witness :
  ∃ response,
    parseRawResponse (demo_payload true) = (Some response, None) ∧
    map Price.Instrument (PricingResponse.Prices response)
      = ["EUR_GBP"; "GBP_USD"; "GBP_JPY"].
Proof.
  destruct (parseRawResponse_reshapes (demo_payload true)) as [r [Hr _]].
  - repeat constructor.
  - exists r. split; [exact Hr|].
    vm_compute in Hr. injection Hr as <-. reflexivity.
Defined.

(** C2. For every raw pricing payload in which some instrument entry has no
    bid level or no ask level, [parseRawResponse] returns an error and the
    nil pointer: nothing of what was reshaped before the failure comes
    back. *)
Theorem parseRawResponse_fails_whole (raw : RawPricingResponse.t) :
  Exists (λ rp, RawPrice.Bids rp = [] ∨ RawPrice.Asks rp = [])
         (RawPricingResponse.Prices raw) →
  ∃ err, parseRawResponse raw = (None, Some err).
Proof.
  intros Hex. destruct (first_error_Exists _ Hex) as [e He].
  exists e. unfold parseRawResponse.
  pose proof (parseRawResponse_loop_error (RawPricingResponse.Prices raw) 0
    (PricingResponse.mk (RawPricingResponse.Time raw)
       (replicate (length (RawPricingResponse.Prices raw)) Price.zero))) as H.
  rewrite He in H. exact H.
Qed.

Lemma parseRawResponse_fails_whole_witness :
  ∃ err, parseRawResponse demo_payload_empty_side = (None, Some err).
Proof.
  apply (parseRawResponse_fails_whole demo_payload_empty_side).
  apply Exists_cons_tl, Exists_cons_hd. left. reflexivity.
Defined.

(** C10. [parseRawResponse] examines the entries in input order and stops at
    the first one with an empty side, bids before asks: when the entries
    before [rp] have both sides and [rp] lacks one, the error is the
    missing-bid error if [rp] has no bid (also when it has no ask either)
    and the missing-ask error otherwise, whatever follows [rp]. The error
    does not tell which instrument failed: it is one of two fixed texts and
    stays the same when the instruments are renamed. *)
Theorem parseRawResponse_first_failure (raw : RawPricingResponse.t)
    (pre : list RawPrice.t) (rp : RawPrice.t) (post : list RawPrice.t) :
  RawPricingResponse.Prices raw = (pre ++ rp :: post)%list →
  Forall has_both_sides pre →
  RawPrice.Bids rp = [] ∨ RawPrice.Asks rp = [] →
  parseRawResponse raw =
    (None, Some (match RawPrice.Bids rp with
                 | [] => "No bid prices recieved."
                 | _ :: _ => "No ask prices recieved."
                 end)) ∧
  ∀ f, parseRawResponse (rename_instruments f raw) = parseRawResponse raw.
Proof.
  intros Hsplit Hpre Hrp.
  assert (He : first_error (RawPricingResponse.Prices raw) =
               Some (match RawPrice.Bids rp with
                     | [] => "No bid prices recieved."
                     | _ :: _ => "No ask prices recieved."
                     end)).
  { rewrite Hsplit, (first_error_app pre rp post Hpre).
    rewrite (entry_error_Some rp Hrp). reflexivity. }
  assert (Hrun : ∀ raw', first_error (RawPricingResponse.Prices raw') =
                         first_error (RawPricingResponse.Prices raw) →
                         parseRawResponse raw' =
                         (None, first_error (RawPricingResponse.Prices raw))).
  { intros raw' Heq. unfold parseRawResponse.
    pose proof (parseRawResponse_loop_error (RawPricingResponse.Prices raw') 0
      (PricingResponse.mk (RawPricingResponse.Time raw')
         (replicate (length (RawPricingResponse.Prices raw')) Price.zero))) as H.
    rewrite Heq, He in H. rewrite He. exact H. }
  split.
  - rewrite (Hrun raw eq_refl). rewrite He. reflexivity.
  - intros f. rewrite (Hrun raw eq_refl). apply Hrun.
    apply first_error_rename.
Qed.

Lemma parseRawResponse_first_failure_witness :
  parseRawResponse demo_payload_empty_side
    = (None, Some "No bid prices recieved.").
Proof.
  apply (parseRawResponse_first_failure demo_payload_empty_side
           [RawPrice.mk "GBP_USD" true [demo_level 10680420] [demo_level 10681260]]
           (RawPrice.mk "EUR_GBP" true [] [])
           [RawPrice.mk "GBP_JPY" true [] [demo_level 12000100]]).
  - reflexivity.
  - repeat constructor.
  - left. reflexivity.
Defined.

(** ** Formatting *)




(** ** Traces *)

Lemma orders_attempted_app (a b : list event) :
  orders_attempted (a ++ b) = (orders_attempted a ++ orders_attempted b)%list.
Proof.
  induction a as [|e a IH]; [reflexivity|].
  destruct e; simpl; rewrite ?IH; reflexivity.
Qed.

Lemma prices_fetched_app (a b : list event) :
  prices_fetched (a ++ b) = (prices_fetched a ++ prices_fetched b)%list.
Proof.
  induction a as [|e a IH]; [reflexivity|].
  destruct e; simpl; rewrite ?IH; reflexivity.
Qed.

Lemma config_reads_app (a b : list event) :
  config_reads (a ++ b) = (config_reads a ++ config_reads b)%list.
Proof.
  induction a as [|e a IH]; [reflexivity|].
  destruct e; simpl; rewrite ?IH; reflexivity.
Qed.

Lemma requests_sent_app (a b : list event) :
  requests_sent (a ++ b) = (requests_sent a ++ requests_sent b)%list.
Proof.
  induction a as [|e a IH]; [reflexivity|].
  destruct e; simpl; rewrite ?IH; reflexivity.
Qed.

Lemma orders_sent_app (a b : list event) :
  orders_sent (a ++ b) = (orders_sent a ++ orders_sent b)%list.
Proof. unfold orders_sent. rewrite requests_sent_app. apply List.filter_app. Qed.

Lemma quiet_orders_sent (es : list event) : quiet es → orders_sent es = [].
Proof. intros (_ & _ & _ & H). unfold orders_sent. rewrite H. reflexivity. Qed.

Create Rewrite HintDb trace.
#[local] Hint Rewrite orders_attempted_app prices_fetched_app
  config_reads_app requests_sent_app orders_sent_app : trace.

(** ** The runs of the two API functions *)

Section Runs.
Context (rt : Runtime.t).

  (** [getPrices], step by step: the credentials are read first; a failed
      read ends the process, a URL that does not parse ends the call, and
      otherwise one request goes to the client and its answer decides the
      result. *)
Lemma getPrices_run (instruments : list string) (h : list event) :
    getPrices rt instruments h =
      let h1 := (h ++ [Call_getPrices instruments])%list in
      let r := Runtime.config_json rt h1 in
      match r with
      | OpenFails e | DecodeFails e =>
          (Exits 1, [Call_getPrices instruments; Read_config r; Log_Fatal e])
      | Decoded creds =>
          match Runtime.url_Parse rt (pricing_url creds) with
          | inr err =>
              (Returns (None, Some err),
               [Call_getPrices instruments; Read_config r])
          | inl u =>
              let req := pricing_request rt creds u instruments in
              let reply := Runtime.client_Do rt (h1 ++ [Read_config r])%list req in
              (Returns (prices_result rt reply),
               [Call_getPrices instruments; Read_config r; Do req reply])
          end
      end.
  Proof.
    unfold getPrices, getCreds, read_config, do_request, log_Fatal, bind,
      emit, exit, ret, http_NewRequest, pricing_url, pricing_request.
    cbv zeta.
    destruct (Runtime.config_json rt (h ++ [Call_getPrices instruments]))
      as [e|e|creds] eqn:Hc; try reflexivity.
    destruct (Runtime.url_Parse rt _) as [u|err]; [|reflexivity].
    unfold Request.with_Header, Request.with_URL.
    cbn [app Request.Header Request.URL Request.Method Request.Body].
    match goal with
    | |- context [Runtime.client_Do rt ?hh ?rq] =>
        destruct (Runtime.client_Do rt hh rq) as [resp|err] eqn:Hd
    end; [|reflexivity].
    unfold prices_result, prices_status_error.
    destruct (Response.Body resp); [|reflexivity].
    destruct (negb (Response.StatusCode resp =? 200)); [reflexivity|].
    destruct (Runtime.json_Unmarshal_RawPricingResponse rt body); [|reflexivity].
    destruct (parseRawResponse t) as [p [e|]]; reflexivity.
  Qed.

Lemma placeMarketOrder_run (units : Z) (instrument : string)
      (priceBound : float32) (h : list event) :
    placeMarketOrder rt units instrument priceBound h =
      let call := Call_placeMarketOrder units instrument priceBound in
      let h1 := (h ++ [call])%list in
      let r := Runtime.config_json rt h1 in
      match r with
      | OpenFails e | DecodeFails e =>
          (Exits 1, [call; Read_config r; Log_Fatal e])
      | Decoded creds =>
          match Runtime.json_Marshal rt (order_of units instrument priceBound) with
          | inr err => (Returns (None, Some err), [call; Read_config r])
          | inl jsonBody =>
              match Runtime.url_Parse rt (order_url creds) with
              | inr err => (Returns (None, Some err), [call; Read_config r])
              | inl u =>
                  let req := order_request creds u jsonBody in
                  let reply :=
                    Runtime.client_Do rt (h1 ++ [Read_config r])%list req in
                  (Returns (order_result rt reply),
                   [call; Read_config r; Do req reply])
              end
          end
      end.
  Proof.
    unfold placeMarketOrder, getCreds, read_config, do_request, log_Fatal,
      bind, emit, exit, ret, http_NewRequest, order_url, order_request,
      order_of.
    cbv zeta.
    destruct (Runtime.config_json rt _) as [e|e|creds] eqn:Hc; try reflexivity.
    destruct (Runtime.json_Marshal rt _) as [jsonBody|err]; [|reflexivity].
    destruct (Runtime.url_Parse rt _) as [u|err]; [|reflexivity].
    unfold Request.with_Header, Request.with_URL.
    cbn [app Request.Header Request.URL Request.Method Request.Body].
    match goal with
    | |- context [Runtime.client_Do rt ?hh ?rq] =>
        destruct (Runtime.client_Do rt hh rq) as [resp|err] eqn:Hd
    end; [|reflexivity].
    unfold order_result, order_status_error.
    destruct (Response.Body resp); [|reflexivity].
    destruct (negb (Response.StatusCode resp =? 201)); [reflexivity|].
    destruct (Runtime.json_Unmarshal_OrderResponse rt body); reflexivity.
  Qed.

  (** The driver, in terms of the runs of the two API functions. *)
Lemma EntryPoint_run (h : list event) :
    EntryPoint rt h =
      match getPrices rt ["GBP_USD"; "EUR_GBP"; "GBP_JPY"] h with
      | (Returns (_, Some e), es) =>
          (Exits 1, (es ++ [Log_Fatal ("Error retrieving prices: " ++ e)])%list)
      | (Returns (None, None), es) =>
          (Panics "invalid memory address or nil pointer dereference",
           (es ++ [Println "Prices retrieved successfully."; Dump_prices None])%list)
      | (Returns (Some response, None), es) =>
          let es1 := (es ++ fetched_output response)%list in
          match PricingResponse.Prices response !! 0%nat with
          | None => (Panics "index out of range", es1)
          | Some price0 =>
              if Price.Tradeable price0 then
                match placeMarketOrder rt 1 "GBP_USD" (Price.Ask price0)
                        (h ++ es1)%list with
                | (Returns (_, Some e), es2) =>
                    (Returns tt,
                     (es1 ++ es2 ++
                      [Log_Printf ("Error placing market order: " ++ e)])%list)
                | (Returns (orderResponse, None), es2) =>
                    (Returns tt,
                     (es1 ++ es2 ++
                      [Println "Market order placed successfully.";
                       Dump_order orderResponse])%list)
                | (Exits c, es2) => (Exits c, (es1 ++ es2)%list)
                | (Panics s, es2) => (Panics s, (es1 ++ es2)%list)
                end
              else
                (Returns tt,
                 (es1 ++
                  [Println "Error executing market order! Instrument currently not tradeable."])%list)
          end
      | (Exits c, es) => (Exits c, es)
      | (Panics s, es) => (Panics s, es)
      end.
  Proof.
    unfold EntryPoint, fetched_output. cbv zeta. unfold bind at 1.
    destruct (getPrices rt _ h) as [[[p e]|c|s] es]; try reflexivity.
    destruct e as [e|].
    - unfold bind, log_Fatal, bind, emit, exit. simpl. destruct p; reflexivity.
    - unfold bind at 1. unfold bind at 1. unfold emit at 1 2. cbn [app].
      destruct p as [response|]; [|reflexivity].
      destruct (PricingResponse.Prices response !! 0%nat) as [price0|];
        [|reflexivity].
      destruct (Price.Tradeable price0).
      + unfold bind, emit. rewrite <- (app_assoc h es).
        destruct (placeMarketOrder rt 1 "GBP_USD" (Price.Ask price0) _)
          as [[[o e]|c|s] es2]; rewrite <- ?app_assoc; try reflexivity.
        destruct o, e; rewrite <- ?app_assoc, ?app_nil_r; reflexivity.
      + unfold emit. rewrite <- app_assoc. reflexivity.
  Qed.

Lemma getPrices_trace (instruments : list string) (h : list event) :
    let es := snd (getPrices rt instruments h) in
    orders_attempted es = [] ∧
    prices_fetched es = [instruments] ∧
    (∃ r tail, es = Call_getPrices instruments :: Read_config r :: tail ∧
               config_reads tail = []) ∧
    orders_sent es = [].
  Proof.
    rewrite getPrices_run. cbv zeta.
    destruct (Runtime.config_json rt _) as [e|e|creds];
      [simpl; eauto 10 | simpl; eauto 10 |].
    destruct (Runtime.url_Parse rt _) as [u|err]; simpl; eauto 10.
  Qed.

Lemma placeMarketOrder_trace (units : Z) (instrument : string)
      (priceBound : float32) (h : list event) :
    let es := snd (placeMarketOrder rt units instrument priceBound h) in
    orders_attempted es = [(units, instrument, priceBound)] ∧
    prices_fetched es = [] ∧
    (∃ r tail, es = Call_placeMarketOrder units instrument priceBound
                      :: Read_config r :: tail ∧
               config_reads tail = []) ∧
    (orders_sent es = [] ∨
     ∃ req jsonBody,
       orders_sent es = [req] ∧ Request.Body req = Some jsonBody ∧
       Runtime.json_Marshal rt (order_of units instrument priceBound)
         = inl jsonBody).
  Proof.
    rewrite placeMarketOrder_run. cbv zeta.
    destruct (Runtime.config_json rt _) as [e|e|creds];
      [simpl; eauto 10 | simpl; eauto 10 |].
    destruct (Runtime.json_Marshal rt _) as [jsonBody|err] eqn:Hm;
      [|simpl; eauto 10].
    destruct (Runtime.url_Parse rt _) as [u|err]; [|simpl; eauto 10].
    simpl. repeat split; eauto 10.
  Qed.

  (** The request of a call is built from the credentials the call read:
      the account's URL and the bearer token. *)
Lemma getPrices_uses_read_credentials (instruments : list string)
      (h : list event) (creds : Credentials.t) (req : Request.t)
      (reply : Response.t + error) :
    In (Read_config (Decoded creds)) (snd (getPrices rt instruments h)) →
    In (Do req reply) (snd (getPrices rt instruments h)) →
    Request.Header req !! "Authorization"
      = Some ["Bearer " ++ Credentials.BearerToken creds] ∧
    ∃ u, Runtime.url_Parse rt (pricing_url creds) = inl u ∧
         URL.Base (Request.URL req) = URL.Base u.
  Proof.
    rewrite getPrices_run. cbv zeta.
    destruct (Runtime.config_json rt _) as [e|e|creds'];
      try (simpl; intros _ [H|[H|[H|[]]]]; discriminate H).
    destruct (Runtime.url_Parse rt (pricing_url creds')) as [u|err] eqn:Hu;
      [|simpl; intros _ [H|[H|[]]]; discriminate H].
    cbn [snd]. intros [H|[H|[H|[]]]]; try discriminate H.
    injection H as ->.
    intros [H|[H|[H|[]]]]; try discriminate H.
    injection H as <- _. split.
    - apply lookup_insert_eq.
    - exists u. split; [exact Hu|reflexivity].
  Qed.

Lemma placeMarketOrder_uses_read_credentials (units : Z)
      (instrument : string) (priceBound : float32)
      (h : list event) (creds : Credentials.t) (req : Request.t)
      (reply : Response.t + error) :
    In (Read_config (Decoded creds))
       (snd (placeMarketOrder rt units instrument priceBound h)) →
    In (Do req reply)
       (snd (placeMarketOrder rt units instrument priceBound h)) →
    Request.Header req !! "Authorization"
      = Some ["Bearer " ++ Credentials.BearerToken creds] ∧
    Runtime.url_Parse rt (order_url creds) = inl (Request.URL req).
  Proof.
    rewrite placeMarketOrder_run. cbv zeta.
    destruct (Runtime.config_json rt _) as [e|e|creds'];
      try (simpl; intros _ [H|[H|[H|[]]]]; discriminate H).
    destruct (Runtime.json_Marshal rt _) as [jsonBody|err];
      [|simpl; intros _ [H|[H|[]]]; discriminate H].
    destruct (Runtime.url_Parse rt (order_url creds')) as [u|err] eqn:Hu;
      [|simpl; intros _ [H|[H|[]]]; discriminate H].
    cbn [snd]. intros [H|[H|[H|[]]]]; try discriminate H.
    injection H as ->.
    intros [H|[H|[H|[]]]]; try discriminate H.
    injection H as <- _. split.
    - apply lookup_insert_eq.
    - exact Hu.
  Qed.
End Runs.

Lemma pricing_url_eq (creds : Credentials.t) :
  pricing_url creds =
    "https://api-fxpractice.oanda.com/v3/accounts/" ++
    Credentials.AccountID creds ++ "/pricing".
Proof. reflexivity. Qed.

Lemma order_url_eq (creds : Credentials.t) :
  order_url creds =
    "https://api-fxpractice.oanda.com/v3/accounts/" ++
    Credentials.AccountID creds ++ "/orders".
Proof. reflexivity. Qed.

(** ** The order request *)



(** ** The status checks *)






(** ** The driver *)

Section Driver.
Context (rt : Runtime.t).

Lemma quiet_nil : quiet [].
  Proof. repeat split. Qed.

Lemma quiet_fetched_output (response : PricingResponse.t) :
    quiet (fetched_output response).
  Proof. repeat split. Qed.

  (** The trace of the driver: the events of the pricing call, then either
      nothing that matters here, or the output of a successful fetch and
      the events of one order call for one unit of [GBP_USD] at the first
      record's ask. *)
Lemma EntryPoint_trace (h : list event) :
    let es0 := snd (getPrices rt ["GBP_USD"; "EUR_GBP"; "GBP_JPY"] h) in
    (∃ tail, snd (EntryPoint rt h) = (es0 ++ tail)%list ∧ quiet tail) ∨
    (∃ response price0 tail,
       PricingResponse.Prices response !! 0%nat = Some price0 ∧
       snd (EntryPoint rt h) =
         (es0 ++ fetched_output response ++
          snd (placeMarketOrder rt 1 "GBP_USD" (Price.Ask price0)
                 (h ++ es0 ++ fetched_output response)) ++ tail)%list ∧
       quiet tail).
  Proof.
    cbv zeta. rewrite EntryPoint_run.
    destruct (getPrices rt _ h) as [[[p e]|c|s] es]; cbn [snd];
      try (left; exists []; rewrite app_nil_r; split; [reflexivity|apply quiet_nil]).
    destruct e as [e|].
    { left. exists [Log_Fatal ("Error retrieving prices: " ++ e)].
      destruct p; split; try reflexivity; repeat split. }
    destruct p as [response|].
    2:{ left. eexists. split; [reflexivity|repeat split]. }
    cbv zeta.
    destruct (PricingResponse.Prices response !! 0%nat) as [price0|] eqn:H0.
    2:{ left. eexists. split; [reflexivity|apply quiet_fetched_output]. }
    destruct (Price.Tradeable price0).
    2:{ left. eexists. cbn [snd]. rewrite <- app_assoc.
        split; [reflexivity|repeat split]. }
    right. exists response, price0.
    destruct (placeMarketOrder rt 1 "GBP_USD" (Price.Ask price0) _)
      as [[[o e]|c|s] es2]; cbn [snd].
    - destruct o, e; eexists; rewrite <- ?app_assoc;
        (split; [exact H0|split; [reflexivity|repeat split]]).
    - exists []. rewrite app_nil_r, <- app_assoc.
      split; [exact H0|split; [reflexivity|apply quiet_nil]].
    - exists []. rewrite app_nil_r, <- app_assoc.
      split; [exact H0|split; [reflexivity|apply quiet_nil]].
  Qed.

Lemma EntryPoint_tradeable_trace (h : list event)
      (response : PricingResponse.t) (es : list event) (price0 : Price.t) :
    getPrices rt ["GBP_USD"; "EUR_GBP"; "GBP_JPY"] h
      = (Returns (Some response, None), es) →
    PricingResponse.Prices response !! 0%nat = Some price0 →
    Price.Tradeable price0 = true →
    ∃ tail,
      snd (EntryPoint rt h) =
        (es ++ fetched_output response ++
         snd (placeMarketOrder rt 1 "GBP_USD" (Price.Ask price0)
                (h ++ es ++ fetched_output response)) ++ tail)%list ∧
      quiet tail.
  Proof.
    intros Hget H0 Htrade. rewrite EntryPoint_run, Hget. cbv zeta.
    rewrite H0, Htrade.
    destruct (placeMarketOrder rt 1 "GBP_USD" (Price.Ask price0) _)
      as [[[o e]|c|s] es2]; cbn [snd].
    - destruct o, e; eexists; rewrite <- ?app_assoc;
        (split; [reflexivity|repeat split]).
    - exists []. rewrite app_nil_r, <- app_assoc.
      split; [reflexivity|apply quiet_nil].
    - exists []. rewrite app_nil_r, <- app_assoc.
      split; [reflexivity|apply quiet_nil].
  Qed.
End Driver.

(** C5, as the code has it. When the driver's pricing fetch succeeds and
    the first price record's tradeable flag is true, the driver calls
    [placeMarketOrder] exactly once, with unit count 1 and the first
    record's ask as price bound. The call sends exactly one order request,
    carrying the serialization of that order, when the credentials load
    again, the order serializes and the account's URL parses; otherwise it
    ends before the network call and no order request is sent. *)
Theorem EntryPoint_places_one_order (rt : Runtime.t) (h : list event)
    (response : PricingResponse.t) (es : list event)
    (price0 : Price.t) (rest : list Price.t) :
  getPrices rt ["GBP_USD"; "EUR_GBP"; "GBP_JPY"] h
    = (Returns (Some response, None), es) →
  PricingResponse.Prices response = price0 :: rest →
  Price.Tradeable price0 = true →
  orders_attempted (snd (EntryPoint rt h))
    = [(1, "GBP_USD", Price.Ask price0)] ∧
  (length (orders_sent (snd (EntryPoint rt h))) ≤ 1)%nat ∧
  (∀ req,
     In req (orders_sent (snd (EntryPoint rt h))) →
     ∃ jsonBody,
       Request.Body req = Some jsonBody ∧
       Runtime.json_Marshal rt (order_of 1 "GBP_USD" (Price.Ask price0))
         = inl jsonBody) ∧
  orders_sent (snd (EntryPoint rt h)) =
    match
      Runtime.config_json rt
        ((h ++ es ++ fetched_output response) ++
         [Call_placeMarketOrder 1 "GBP_USD" (Price.Ask price0)])%list
    with
    | Decoded creds =>
        match
          Runtime.json_Marshal rt (order_of 1 "GBP_USD" (Price.Ask price0)),
          Runtime.url_Parse rt (order_url creds)
        with
        | inl jsonBody, inl u => [order_request creds u jsonBody]
        | _, _ => []
        end
    | OpenFails _ | DecodeFails _ => []
    end.
Proof.
  intros Hget Hprices Htrade.
  assert (H0 : PricingResponse.Prices response !! 0%nat = Some price0)
    by (rewrite Hprices; reflexivity).
  destruct (EntryPoint_tradeable_trace rt h response es price0 Hget H0 Htrade)
    as [tail [-> Hq]].
  pose proof (getPrices_trace rt ["GBP_USD"; "EUR_GBP"; "GBP_JPY"] h) as Hg.
  rewrite Hget in Hg. cbn [snd] in Hg. destruct Hg as (Hga & _ & _ & Hgs).
  pose proof (placeMarketOrder_trace rt 1 "GBP_USD" (Price.Ask price0)
                (h ++ es ++ fetched_output response)) as Hp.
  cbv zeta in Hp. destruct Hp as (Hpa & _ & _ & Hps).
  pose proof (quiet_orders_sent tail Hq) as Hqs.
  destruct Hq as (Hqa & _).
  autorewrite with trace. rewrite Hga, Hpa, Hqa, Hgs, Hqs.
  change (orders_sent (fetched_output response)) with (@nil Request.t).
  change (orders_attempted (fetched_output response))
    with (@nil (Z * string * float32)).
  cbn [app]. rewrite app_nil_r.
  split; [reflexivity|].
  split; [|split].
  - destruct Hps as [-> | (req0 & jsonBody & -> & _)]; simpl; lia.
  - destruct Hps as [-> | (req0 & jsonBody & -> & Hb & Hm)].
    + intros req [].
    + intros req [<- | []]. eauto.
  - clear Hps. rewrite placeMarketOrder_run. cbv zeta.
    destruct (Runtime.config_json rt _) as [e|e|creds]; try reflexivity.
    destruct (Runtime.json_Marshal rt _) as [jsonBody|err]; [|reflexivity].
    destruct (Runtime.url_Parse rt _) as [u|err]; reflexivity.
Qed.

(** The order leaves: one [POST], with the order for one unit of "GBP_USD"
    at the first record's ask, 0.85010. *)
Lemma EntryPoint_places_one_order_witness :
  orders_attempted (snd (EntryPoint demo_runtime_tradeable []))
    = [(1, "GBP_USD", S754_finite false 7131156 (-23))] ∧
  map Request.Body (orders_sent (snd (EntryPoint demo_runtime_tradeable [])))
    = [Some "1 GBP_USD 0.85010 FOK MARKET DEFAULT"].
Proof.
  destruct (EntryPoint_places_one_order demo_runtime_tradeable []
              (demo_response true)
              (snd (getPrices demo_runtime_tradeable demo_instruments []))
              (demo_price0 true)
              (drop 1 (PricingResponse.Prices (demo_response true))))
    as (Ha & _ & _ & Hs).
  - rewrite getPrices_run. reflexivity.
  - reflexivity.
  - reflexivity.
  - split; [exact Ha|]. rewrite Hs. reflexivity.
Defined.

(** C5 as stated fails: the pricing fetch succeeds and the first record is
    tradeable, but [config.json] cannot be opened when [placeMarketOrder]
    reads it again; the process exits and no order request is sent. *)
Lemma order_not_sent_when_credentials_fail :
  ∃ es rest,
    getPrices demo_runtime_config_removed ["GBP_USD"; "EUR_GBP"; "GBP_JPY"] []
      = (Returns (Some (demo_response true), None), es) ∧
    PricingResponse.Prices (demo_response true) = demo_price0 true :: rest ∧
    Price.Tradeable (demo_price0 true) = true ∧
    fst (EntryPoint demo_runtime_config_removed []) = Exits 1 ∧
    orders_sent (snd (EntryPoint demo_runtime_config_removed [])) = [] ∧
    map Request.Method
      (requests_sent (snd (EntryPoint demo_runtime_config_removed [])))
      = ["GET"].
Proof.
  exists (snd (getPrices demo_runtime_config_removed demo_instruments [])),
         (drop 1 (PricingResponse.Prices (demo_response true))).
  split; [rewrite getPrices_run; reflexivity|].
  repeat split; vm_compute; reflexivity.
Qed.

(** C6. Whenever the pricing fetch succeeds and the first price record's
    tradeable flag is false, the driver does not call [placeMarketOrder]
    and sends no order request: after the output of the fetch it prints
    one message and returns. *)
Theorem EntryPoint_not_tradeable (rt : Runtime.t) (h : list event)
    (response : PricingResponse.t) (es : list event)
    (price0 : Price.t) (rest : list Price.t) :
  getPrices rt ["GBP_USD"; "EUR_GBP"; "GBP_JPY"] h
    = (Returns (Some response, None), es) →
  PricingResponse.Prices response = price0 :: rest →
  Price.Tradeable price0 = false →
  EntryPoint rt h =
    (Returns tt,
     (es ++
      [Println "Prices retrieved successfully.";
       Dump_prices (Some response);
       Println "Error executing market order! Instrument currently not tradeable."])%list) ∧
  orders_attempted (snd (EntryPoint rt h)) = [] ∧
  orders_sent (snd (EntryPoint rt h)) = [].
Proof.
  intros Hget Hprices Htrade.
  assert (Hrun : EntryPoint rt h =
    (Returns tt,
     (es ++
      [Println "Prices retrieved successfully.";
       Dump_prices (Some response);
       Println "Error executing market order! Instrument currently not tradeable."])%list)).
  { assert (H0 : PricingResponse.Prices response !! 0%nat = Some price0)
      by (rewrite Hprices; reflexivity).
    rewrite EntryPoint_run, Hget. cbv zeta. rewrite H0, Htrade.
    unfold fetched_output. rewrite <- app_assoc. reflexivity. }
  split; [exact Hrun|]. rewrite Hrun. cbn [snd].
  pose proof (getPrices_trace rt ["GBP_USD"; "EUR_GBP"; "GBP_JPY"] h) as Hg.
  rewrite Hget in Hg. cbn [snd] in Hg. destruct Hg as (Hga & _ & _ & Hgs).
  autorewrite with trace. rewrite Hga, Hgs. split; reflexivity.
Qed.

Lemma EntryPoint_not_tradeable_witness :
  orders_attempted (snd (EntryPoint demo_runtime_closed [])) = [] ∧
  orders_sent (snd (EntryPoint demo_runtime_closed [])) = [].
Proof.
  refine (proj2 (EntryPoint_not_tradeable demo_runtime_closed []
            (PricingResponse.mk "2024-01-01T00:00:00Z"
               [Price.mk "EUR_GBP" false (S754_finite false 7130317 (-23))
                                         (S754_finite false 7131156 (-23));
                Price.mk "GBP_USD" true (S754_finite false 10680420 (-23))
                                        (S754_finite false 10681260 (-23));
                Price.mk "GBP_JPY" false (S754_finite false 12000000 (-23))
                                         (S754_finite false 12000100 (-23))])
            (snd (getPrices demo_runtime_closed demo_instruments []))
            (Price.mk "EUR_GBP" false (S754_finite false 7130317 (-23))
                                      (S754_finite false 7131156 (-23)))
            _ _ _ _)).
  - rewrite getPrices_run. reflexivity.
  - reflexivity.
  - reflexivity.
Defined.

(** C7, as the code has it. Each API function reads the configuration file
    once, as its first step: [getPrices] does and [placeMarketOrder] does
    again. A run of the driver calls [getPrices] once and
    [placeMarketOrder] at most once, so it reads the file once, and a
    second time when it attempts an order. The request of a call carries
    the bearer token the call has just read, unchanged. *)
Theorem config_read_once_per_call (rt : Runtime.t) :
  (∀ instruments h creds req reply,
     In (Read_config (Decoded creds)) (snd (getPrices rt instruments h)) →
     In (Do req reply) (snd (getPrices rt instruments h)) →
     Request.Header req !! "Authorization"
       = Some ["Bearer " ++ Credentials.BearerToken creds]) ∧
  (∀ units instrument priceBound h creds req reply,
     In (Read_config (Decoded creds))
        (snd (placeMarketOrder rt units instrument priceBound h)) →
     In (Do req reply)
        (snd (placeMarketOrder rt units instrument priceBound h)) →
     Request.Header req !! "Authorization"
       = Some ["Bearer " ++ Credentials.BearerToken creds]) ∧
  (∀ instruments h,
     ∃ r tail,
       snd (getPrices rt instruments h)
         = Call_getPrices instruments :: Read_config r :: tail ∧
       config_reads tail = []) ∧
  (∀ units instrument priceBound h,
     ∃ r tail,
       snd (placeMarketOrder rt units instrument priceBound h)
         = Call_placeMarketOrder units instrument priceBound
             :: Read_config r :: tail ∧
       config_reads tail = []) ∧
  (∀ h,
     length (prices_fetched (snd (EntryPoint rt h))) = 1%nat ∧
     (length (orders_attempted (snd (EntryPoint rt h))) ≤ 1)%nat ∧
     length (config_reads (snd (EntryPoint rt h))) =
       (length (prices_fetched (snd (EntryPoint rt h))) +
        length (orders_attempted (snd (EntryPoint rt h))))%nat).
Proof.
  split; [intros instruments h creds req reply Hr Hd;
          apply (getPrices_uses_read_credentials rt instruments h creds req
                   reply Hr Hd)|].
  split; [intros units instrument priceBound h creds req reply Hr Hd;
          apply (placeMarketOrder_uses_read_credentials rt units instrument
                   priceBound h creds req reply Hr Hd)|].
  split; [intros instruments h; apply (getPrices_trace rt instruments h)|].
  split; [intros units instrument priceBound h;
          apply (placeMarketOrder_trace rt units instrument priceBound h)|].
  intros h.
  pose proof (getPrices_trace rt ["GBP_USD"; "EUR_GBP"; "GBP_JPY"] h) as Hg.
  cbv zeta in Hg. destruct Hg as (Hga & Hgf & (r & tail0 & Hgt & Hgr) & _).
  assert (Hgc : length (config_reads
                  (snd (getPrices rt ["GBP_USD"; "EUR_GBP"; "GBP_JPY"] h))) = 1%nat).
  { rewrite Hgt. simpl. rewrite Hgr. reflexivity. }
  destruct (EntryPoint_trace rt h)
    as [(tail & -> & Hqa & Hqf & Hqc & _)
       |(response & price0 & tail & _ & -> & Hqa & Hqf & Hqc & _)].
  - autorewrite with trace. rewrite !length_app, Hga, Hgf, Hqa, Hqf, Hqc, Hgc.
    simpl. lia.
  - pose proof (placeMarketOrder_trace rt 1 "GBP_USD" (Price.Ask price0)
        (h ++ snd (getPrices rt ["GBP_USD"; "EUR_GBP"; "GBP_JPY"] h) ++
         fetched_output response)) as Hp.
    cbv zeta in Hp. destruct Hp as (Hpa & Hpf & (r' & tail' & Hpt & Hpr) & _).
    autorewrite with trace.
    rewrite !length_app, Hga, Hgf, Hqa, Hqf, Hqc, Hgc, Hpa, Hpf.
    rewrite Hpt. simpl. rewrite Hpr. simpl. lia.
Qed.

Lemma config_read_once_per_call_witness :
  Request.Header
    (pricing_request demo_runtime_tradeable demo_creds
       (URL.mk (pricing_url demo_creds) "") demo_instruments)
    !! "Authorization" = Some ["Bearer secret"].
Proof.
  refine (proj1 (config_read_once_per_call demo_runtime_tradeable)
            demo_instruments [] demo_creds _ (ok_reply 200 "prices") _ _).
  - rewrite getPrices_run. right. left. reflexivity.
  - rewrite getPrices_run. right. right. left. reflexivity.
Defined.

(** C7 as stated fails: in a run that attempts an order, the configuration
    file is read a second time, after the pricing request has been sent. *)
Lemma config_read_again_for_order :
  ∃ before req reply after,
    snd (EntryPoint demo_runtime_tradeable [])
      = (before ++ Do req reply :: after)%list ∧
    config_reads before = [Decoded demo_creds] ∧
    config_reads after = [Decoded demo_creds] ∧
    length (config_reads (snd (EntryPoint demo_runtime_tradeable []))) = 2%nat.
Proof.
  exists [Call_getPrices demo_instruments; Read_config (Decoded demo_creds)],
         (pricing_request demo_runtime_tradeable demo_creds
            (URL.mk (pricing_url demo_creds) "") demo_instruments),
         (ok_reply 200 "prices"),
         (drop 3 (snd (EntryPoint demo_runtime_tradeable []))).
  repeat split; vm_compute; reflexivity.
Qed.

(** C8. The instrument of every order the driver attempts is the constant
    "GBP_USD", whatever the pricing response holds: it is not read from the
    first price record, whose tradeable flag gates the order and whose ask
    bounds it. Every order request that reaches the client carries the
    serialization of an order for "GBP_USD". *)
Theorem EntryPoint_order_instrument (rt : Runtime.t) (h : list event) :
  (∀ units instrument priceBound,
     In (units, instrument, priceBound)
        (orders_attempted (snd (EntryPoint rt h))) →
     instrument = "GBP_USD") ∧
  (∀ req,
     In req (orders_sent (snd (EntryPoint rt h))) →
     ∃ order jsonBody,
       Request.Body req = Some jsonBody ∧
       Runtime.json_Marshal rt order = inl jsonBody ∧
       MarketOrder.Instrument (MarketOrderRequest.Order order) = "GBP_USD").
Proof.
  pose proof (getPrices_trace rt ["GBP_USD"; "EUR_GBP"; "GBP_JPY"] h) as Hg.
  cbv zeta in Hg. destruct Hg as (Hga & _ & _ & Hgs).
  destruct (EntryPoint_trace rt h)
    as [(tail & -> & Hq) | (response & price0 & tail & _ & -> & Hq)];
    pose proof (quiet_orders_sent tail Hq) as Hqs;
    destruct Hq as (Hqa & _).
  - split.
    + intros units instrument priceBound.
      autorewrite with trace. rewrite Hga, Hqa. intros [].
    + intros req. autorewrite with trace. rewrite Hgs, Hqs. intros [].
  - pose proof (placeMarketOrder_trace rt 1 "GBP_USD" (Price.Ask price0)
        (h ++ snd (getPrices rt ["GBP_USD"; "EUR_GBP"; "GBP_JPY"] h) ++
         fetched_output response)) as Hp.
    cbv zeta in Hp. destruct Hp as (Hpa & _ & _ & Hps).
    split.
    + intros units instrument priceBound.
      autorewrite with trace. rewrite Hga, Hpa, Hqa.
      change (orders_attempted (fetched_output response))
        with (@nil (Z * string * float32)).
      cbn [app]. intros [Heq | []]. congruence.
    + intros req. autorewrite with trace. rewrite Hgs, Hqs.
      change (orders_sent (fetched_output response)) with (@nil Request.t).
      cbn [app]. rewrite app_nil_r.
      destruct Hps as [-> | (req0 & jsonBody & -> & Hb & Hm)]; [intros []|].
      intros [<- | []].
      exists (order_of 1 "GBP_USD" (Price.Ask price0)), jsonBody.
      repeat split; assumption.
Qed.

(** The first price record is for "EUR_GBP" and tradeable: the order is for
    "GBP_USD" all the same. *)
Lemma EntryPoint_order_instrument_witness :
  (∃ response price0,
     fst (getPrices demo_runtime_tradeable demo_instruments [])
       = Returns (Some response, None) ∧
     PricingResponse.Prices response !! 0%nat = Some price0 ∧
     Price.Instrument price0 = "EUR_GBP") ∧
  In (1, "GBP_USD", S754_finite false 7131156 (-23))
     (orders_attempted (snd (EntryPoint demo_runtime_tradeable []))) ∧
  "GBP_USD" = "GBP_USD".
Proof.
  assert (Hin : In (1, "GBP_USD", S754_finite false 7131156 (-23))
     (orders_attempted (snd (EntryPoint demo_runtime_tradeable []))))
    by (vm_compute; left; reflexivity).
  split; [|split; [exact Hin|]].
  - eexists _, _. rewrite getPrices_run. repeat split.
  - exact (proj1 (EntryPoint_order_instrument demo_runtime_tradeable [])
             1 "GBP_USD" (S754_finite false 7131156 (-23)) Hin).
Defined.

(** C9. [getPrices] does not validate its [instruments] argument. For every
    list of instrument strings, the empty list and lists with empty strings
    included: once the credentials are loaded and the account's URL
    parses, which do not depend on the list, the next step is the network
    call, and the request's query is the encoding of the URL's own
    parameters to which the comma-join of the list has been added as a
    value of [instruments]. The join of the empty list is the empty
    string. *)
Theorem getPrices_sends_joined_instruments (rt : Runtime.t)
    (instruments : list string) (h : list event)
    (creds : Credentials.t) (u : URL.t) :
  In (Read_config (Decoded creds)) (snd (getPrices rt instruments h)) →
  Runtime.url_Parse rt (pricing_url creds) = inl u →
  let joined := strings_Join instruments "," in
  let q0 := Runtime.url_ParseQuery rt (URL.RawQuery u) in
  let q := Values_Add q0 "instruments" joined in
  let req := pricing_request rt creds u instruments in
  (∃ reply,
     getPrices rt instruments h =
       (Returns (prices_result rt reply),
        [Call_getPrices instruments; Read_config (Decoded creds); Do req reply])) ∧
  URL.RawQuery (Request.URL req) = Runtime.Values_Encode rt q ∧
  q !! "instruments" = Some (default [] (q0 !! "instruments") ++ [joined])%list ∧
  strings_Join [] "," = "" ∧
  strings_Join [""; ""] "," = ",".
Proof.
  intros Hin Hurl joined q0 q req.
  split; [|split; [reflexivity|split; [apply lookup_insert_eq|split; reflexivity]]].
  revert Hin. rewrite getPrices_run. cbv zeta.
  destruct (Runtime.config_json rt _) as [e|e|creds'] eqn:Hc;
    try (simpl; intros [H|[H|[H|[]]]]; discriminate H).
  assert (Hcreds : In (Read_config (Decoded creds))
                      [Call_getPrices instruments; Read_config (Decoded creds')] →
                   creds' = creds).
  { intros [H|[H|[]]]; [discriminate H|]. injection H as ->. reflexivity. }
  destruct (Runtime.url_Parse rt (pricing_url creds')) as [u'|err] eqn:Hu.
  - cbn [snd]. intros [H|[H|[H|[]]]]; try discriminate H.
    injection H as ->. rewrite Hurl in Hu. injection Hu as <-.
    eexists. reflexivity.
  - cbn [snd]. intros H. apply Hcreds in H. subst creds'.
    rewrite Hurl in Hu. discriminate Hu.
Qed.

(** The empty list of instruments reaches the network, with an empty
    [instruments] parameter. *)
Lemma getPrices_sends_joined_instruments_witness :
  ∃ reply req,
    snd (getPrices demo_runtime_tradeable [] []) =
      [Call_getPrices []; Read_config (Decoded demo_creds); Do req reply] ∧
    URL.RawQuery (Request.URL req) = "instruments=".
Proof.
  destruct (getPrices_sends_joined_instruments demo_runtime_tradeable [] []
              demo_creds (URL.mk (pricing_url demo_creds) ""))
    as [[reply Hrun] _].
  - rewrite getPrices_run. right. left. reflexivity.
  - reflexivity.
  - exists reply, (pricing_request demo_runtime_tradeable demo_creds
                     (URL.mk (pricing_url demo_creds) "") []).
    rewrite Hrun. split; reflexivity.
Defined.

(** * Further properties of the package *)

(** ** Reshaping *)

Lemma first_error_None_iff (raws : list RawPrice.t) :
  first_error raws = None ↔ Forall has_both_sides raws.
Proof.
  induction raws as [|rp rest IH]; simpl.
  - split; [constructor|reflexivity].
  - unfold entry_error, has_both_sides in *.
    destruct (RawPrice.Bids rp) as [|b bs] eqn:Eb.
    + split; [discriminate|]. intros H. inversion H as [|? ? [Hb _] _]; subst.
      rewrite Eb in Hb. simpl in Hb. lia.
    + destruct (RawPrice.Asks rp) as [|a al] eqn:Ea.
      * split; [discriminate|]. intros H. inversion H as [|? ? [_ Ha] _]; subst.
        rewrite Ea in Ha. simpl in Ha. lia.
      * rewrite IH. split.
        -- intros H. constructor; [|exact H].
           rewrite Eb, Ea. simpl. lia.
        -- intros H. inversion H; assumption.
Qed.

Lemma first_error_texts (raws : list RawPrice.t) :
  first_error raws = None ∨
  first_error raws = Some "No bid prices recieved." ∨
  first_error raws = Some "No ask prices recieved.".
Proof.
  induction raws as [|rp rest IH]; simpl; [auto|].
  unfold entry_error.
  destruct (RawPrice.Bids rp); [auto|]. destruct (RawPrice.Asks rp); auto.
Qed.

Lemma parseRawResponse_error (raw : RawPricingResponse.t) :
  match first_error (RawPricingResponse.Prices raw) with
  | Some e => parseRawResponse raw = (None, Some e)
  | None => ∃ r, parseRawResponse raw = (Some r, None)
  end.
Proof. unfold parseRawResponse. apply parseRawResponse_loop_error. Qed.

(** X1. [parseRawResponse] returns a response exactly when every entry has
    a level on each side; and whatever the payload, it returns either a
    response and no error, or no response and one of its two error texts:
    never both a response and an error, never neither. *)
Theorem parseRawResponse_succeeds_iff (raw : RawPricingResponse.t) :
  ((∃ response, parseRawResponse raw = (Some response, None)) ↔
   Forall has_both_sides (RawPricingResponse.Prices raw)) ∧
  ((∃ response, parseRawResponse raw = (Some response, None)) ∨
   parseRawResponse raw = (None, Some "No bid prices recieved.") ∨
   parseRawResponse raw = (None, Some "No ask prices recieved.")).
Proof.
  pose proof (parseRawResponse_error raw) as H.
  pose proof (first_error_None_iff (RawPricingResponse.Prices raw)) as Hiff.
  pose proof (first_error_texts (RawPricingResponse.Prices raw)) as Htexts.
  destruct (first_error (RawPricingResponse.Prices raw)) as [e|].
  - split.
    + split.
      * intros [r Hr]. rewrite H in Hr. discriminate Hr.
      * intros Hall. apply Hiff in Hall. discriminate Hall.
    + right. rewrite H.
      destruct Htexts as [Ht|[Ht|Ht]]; [discriminate Ht| |];
        injection Ht as ->; auto.
  - split; [|left; exact H].
    split; [intros _; apply Hiff; reflexivity|intros _; exact H].
Qed.

Lemma parseRawResponse_loop_top (rest : list RawPrice.t) :
  ∀ i response,
    parseRawResponse_loop i
      (map (λ rp, RawPrice.mk (RawPrice.Instrument rp) (RawPrice.Tradeable rp)
                              (take 1 (RawPrice.Bids rp))
                              (take 1 (RawPrice.Asks rp))) rest) response
    = parseRawResponse_loop i rest response.
Proof.
  induction rest as [|rp rest IH]; intros i response; [reflexivity|].
  simpl. destruct (RawPrice.Bids rp) as [|b bs]; [reflexivity|].
  destruct (RawPrice.Asks rp) as [|a al]; [reflexivity|].
  simpl. apply IH.
Qed.

(** X2. Only the first bid level and the first ask level of an entry
    count: dropping all deeper levels from a payload changes nothing in
    what [parseRawResponse] returns, response or error. *)
Theorem parseRawResponse_ignores_deeper_levels (raw : RawPricingResponse.t) :
  parseRawResponse (top_of_book raw) = parseRawResponse raw.
Proof.
  unfold parseRawResponse, top_of_book. simpl.
  rewrite length_map. apply parseRawResponse_loop_top.
Qed.

Lemma reshape_instruments (raws : list RawPrice.t) (out : list Price.t) :
  Forall2 (λ rp p, reshape rp = Some p) raws out →
  map Price.Instrument out = map RawPrice.Instrument raws ∧
  map Price.Tradeable out = map RawPrice.Tradeable raws.
Proof.
  induction 1 as [|rp p raws out Hp _ [IH1 IH2]]; [split; reflexivity|].
  unfold reshape in Hp.
  destruct (RawPrice.Bids rp); [discriminate|].
  destruct (RawPrice.Asks rp); [discriminate|].
  injection Hp as <-. simpl. rewrite IH1, IH2. split; reflexivity.
Qed.

Lemma parseRawResponse_complete (raw : RawPricingResponse.t) :
  Forall has_both_sides (RawPricingResponse.Prices raw) →
  ∃ out,
    Forall2 (λ rp p, reshape rp = Some p) (RawPricingResponse.Prices raw) out ∧
    parseRawResponse raw =
      (Some (PricingResponse.mk (RawPricingResponse.Time raw) out), None).
Proof.
  intros Hok. unfold parseRawResponse.
  destruct (parseRawResponse_loop_fills (RawPricingResponse.Prices raw) 0
              (RawPricingResponse.Time raw) []
              (replicate (length (RawPricingResponse.Prices raw)) Price.zero))
    as [out [Hout Hrun]];
    [reflexivity | apply length_replicate | exact Hok |].
  exists out. split; [exact Hout|exact Hrun].
Qed.

(** ** The replies of the server *)

Section Replies.
Context (rt : Runtime.t).

(** Once the client has answered, the answer alone decides what the call
    returns. *)
Lemma getPrices_reply (instruments : list string) (h : list event)
    (req : Request.t) (reply : Response.t + error) :
  In (Do req reply) (snd (getPrices rt instruments h)) →
  fst (getPrices rt instruments h) = Returns (prices_result rt reply).
Proof.
  rewrite getPrices_run. cbv zeta.
  destruct (Runtime.config_json rt _) as [e|e|creds];
    try (simpl; intros [H|[H|[H|[]]]]; discriminate H).
  destruct (Runtime.url_Parse rt _) as [u|err];
    [|simpl; intros [H|[H|[]]]; discriminate H].
  simpl. intros [H|[H|[H|[]]]]; try discriminate H.
  injection H as _ ->. reflexivity.
Qed.

Lemma placeMarketOrder_reply (units : Z) (instrument : string)
    (priceBound : float32) (h : list event)
    (req : Request.t) (reply : Response.t + error) :
  In (Do req reply) (snd (placeMarketOrder rt units instrument priceBound h)) →
  fst (placeMarketOrder rt units instrument priceBound h)
    = Returns (order_result rt reply).
Proof.
  rewrite placeMarketOrder_run. cbv zeta.
  destruct (Runtime.config_json rt _) as [e|e|creds];
    try (simpl; intros [H|[H|[H|[]]]]; discriminate H).
  destruct (Runtime.json_Marshal rt _) as [jsonBody|err];
    [|simpl; intros [H|[H|[]]]; discriminate H].
  destruct (Runtime.url_Parse rt _) as [u|err];
    [|simpl; intros [H|[H|[]]]; discriminate H].
  simpl. intros [H|[H|[H|[]]]]; try discriminate H.
  injection H as _ ->. reflexivity.
Qed.
End Replies.

(** X3. When the server answers the pricing call with status 200 and a
    body that decodes to a payload in which every instrument has a level on
    each side, [getPrices] returns what [parseRawResponse] makes of the
    payload: a response and no error, with the payload's time and one
    record per instrument, the instruments and their tradeable flags in the
    payload's order. *)
Theorem getPrices_returns_reshaped_payload (rt : Runtime.t)
    (instruments : list string) (h : list event) (req : Request.t)
    (resp : Response.t) (body : string) (raw : RawPricingResponse.t) :
  In (Do req (inl resp)) (snd (getPrices rt instruments h)) →
  Response.StatusCode resp = 200 →
  Response.Body resp = ReadOk body →
  Runtime.json_Unmarshal_RawPricingResponse rt body = inl raw →
  Forall has_both_sides (RawPricingResponse.Prices raw) →
  ∃ response,
    fst (getPrices rt instruments h) = Returns (Some response, None) ∧
    parseRawResponse raw = (Some response, None) ∧
    PricingResponse.Time response = RawPricingResponse.Time raw ∧
    map Price.Instrument (PricingResponse.Prices response)
      = map RawPrice.Instrument (RawPricingResponse.Prices raw) ∧
    map Price.Tradeable (PricingResponse.Prices response)
      = map RawPrice.Tradeable (RawPricingResponse.Prices raw).
Proof.
  intros Hin Hstatus Hbody Hjson Hok.
  destruct (parseRawResponse_complete raw Hok) as [out [Hout Hparse]].
  destruct (reshape_instruments _ _ Hout) as [Hi Ht].
  exists (PricingResponse.mk (RawPricingResponse.Time raw) out).
  rewrite (getPrices_reply rt instruments h req (inl resp) Hin).
  unfold prices_result. rewrite Hbody, Hstatus, Hjson, Hparse. simpl.
  repeat split; assumption.
Qed.

Lemma getPrices_returns_reshaped_payload_witness :
  ∃ response,
    fst (getPrices demo_runtime_tradeable demo_instruments [])
      = Returns (Some response, None) ∧
    map Price.Instrument (PricingResponse.Prices response)
      = ["EUR_GBP"; "GBP_USD"; "GBP_JPY"].
Proof.
  destruct (getPrices_returns_reshaped_payload demo_runtime_tradeable
              demo_instruments []
              (pricing_request demo_runtime_tradeable demo_creds
                 (URL.mk (pricing_url demo_creds) "") demo_instruments)
              (Response.mk 200 (ReadOk "prices")) "prices" (demo_payload true))
    as [response (Hrun & _ & _ & Hi & _)].
  - rewrite getPrices_run. right. right. left. reflexivity.
  - reflexivity.
  - reflexivity.
  - reflexivity.
  - repeat constructor.
  - exists response. split; [exact Hrun|exact Hi].
Defined.

Section Reads.
Context (rt : Runtime.t).

(** The read a call records is the answer of the configuration file at the
    start of the call. *)
Lemma getPrices_config (instruments : list string) (h : list event)
    (r : config_outcome) :
  In (Read_config r) (snd (getPrices rt instruments h)) →
  Runtime.config_json rt (h ++ [Call_getPrices instruments]) = r.
Proof.
  rewrite getPrices_run. cbv zeta.
  destruct (Runtime.config_json rt _) as [e|e|creds];
    try (simpl; intros [H|[H|[H|[]]]]; try discriminate H;
         injection H as <-; reflexivity).
  destruct (Runtime.url_Parse rt _) as [u|err]; simpl.
  - intros [H|[H|[H|[]]]]; try discriminate H. injection H as <-. reflexivity.
  - intros [H|[H|[]]]; try discriminate H. injection H as <-. reflexivity.
Qed.

Lemma placeMarketOrder_config (units : Z) (instrument : string)
    (priceBound : float32) (h : list event) (r : config_outcome) :
  In (Read_config r) (snd (placeMarketOrder rt units instrument priceBound h)) →
  Runtime.config_json rt
    (h ++ [Call_placeMarketOrder units instrument priceBound]) = r.
Proof.
  rewrite placeMarketOrder_run. cbv zeta.
  destruct (Runtime.config_json rt _) as [e|e|creds];
    try (simpl; intros [H|[H|[H|[]]]]; try discriminate H;
         injection H as <-; reflexivity).
  destruct (Runtime.json_Marshal rt _) as [jsonBody|err]; simpl.
  - destruct (Runtime.url_Parse rt _) as [u|err]; simpl.
    + intros [H|[H|[H|[]]]]; try discriminate H. injection H as <-. reflexivity.
    + intros [H|[H|[]]]; try discriminate H. injection H as <-. reflexivity.
  - intros [H|[H|[]]]; try discriminate H. injection H as <-. reflexivity.
Qed.
End Reads.

(** X4. An error of the transport is returned as it is, by both API
    functions: the error of [client.Do] when no response came, and the
    error of reading the body when one came, whatever its status code, 200
    and 201 included. No response is returned with it. *)
Theorem transport_errors_returned (rt : Runtime.t) :
  (∀ instruments h req err,
     In (Do req (inr err)) (snd (getPrices rt instruments h)) →
     fst (getPrices rt instruments h) = Returns (None, Some err)) ∧
  (∀ instruments h req resp err,
     In (Do req (inl resp)) (snd (getPrices rt instruments h)) →
     Response.Body resp = ReadErr err →
     fst (getPrices rt instruments h) = Returns (None, Some err)) ∧
  (∀ units instrument priceBound h req err,
     In (Do req (inr err))
        (snd (placeMarketOrder rt units instrument priceBound h)) →
     fst (placeMarketOrder rt units instrument priceBound h)
       = Returns (None, Some err)) ∧
  (∀ units instrument priceBound h req resp err,
     In (Do req (inl resp))
        (snd (placeMarketOrder rt units instrument priceBound h)) →
     Response.Body resp = ReadErr err →
     fst (placeMarketOrder rt units instrument priceBound h)
       = Returns (None, Some err)).
Proof.
  repeat split.
  - intros instruments h req err Hin.
    rewrite (getPrices_reply rt _ _ _ _ Hin). reflexivity.
  - intros instruments h req resp err Hin Hbody.
    rewrite (getPrices_reply rt _ _ _ _ Hin).
    unfold prices_result. rewrite Hbody. reflexivity.
  - intros units instrument priceBound h req err Hin.
    rewrite (placeMarketOrder_reply rt _ _ _ _ _ _ Hin). reflexivity.
  - intros units instrument priceBound h req resp err Hin Hbody.
    rewrite (placeMarketOrder_reply rt _ _ _ _ _ _ Hin).
    unfold order_result. rewrite Hbody. reflexivity.
Qed.

Lemma transport_errors_returned_witness :
  fst (getPrices demo_runtime_offline demo_instruments [])
    = Returns (None, Some "connection refused") ∧
  fst (placeMarketOrder demo_runtime_order_cut 1 "GBP_USD" float32_1_2 [])
    = Returns (None, Some "unexpected EOF").
Proof.
  split.
  - refine (proj1 (transport_errors_returned demo_runtime_offline)
              demo_instruments []
              (pricing_request demo_runtime_offline demo_creds
                 (URL.mk (pricing_url demo_creds) "") demo_instruments)
              "connection refused" _).
    rewrite getPrices_run. right. right. left. reflexivity.
  - refine (proj2 (proj2 (proj2 (transport_errors_returned demo_runtime_order_cut)))
              1 "GBP_USD" float32_1_2 []
              (order_request demo_creds (URL.mk (order_url demo_creds) "")
                 "1 GBP_USD 1.20000 FOK MARKET DEFAULT")
              (Response.mk 201 (ReadErr "unexpected EOF")) "unexpected EOF" _ _).
    + rewrite placeMarketOrder_run. right. right. left. reflexivity.
    + reflexivity.
Defined.

(** X5. A pricing reply with status 200 whose body does not decode makes
    [getPrices] return the decoder's error; one whose body decodes to a
    payload with an incomplete entry makes it return the missing-side error
    of the first such entry (bids checked first). In both cases nothing of
    the payload is returned. *)
Theorem getPrices_reports_payload_errors (rt : Runtime.t)
    (instruments : list string) (h : list event) (req : Request.t)
    (resp : Response.t) (body : string) :
  In (Do req (inl resp)) (snd (getPrices rt instruments h)) →
  Response.StatusCode resp = 200 →
  Response.Body resp = ReadOk body →
  (∀ err,
     Runtime.json_Unmarshal_RawPricingResponse rt body = inr err →
     fst (getPrices rt instruments h) = Returns (None, Some err)) ∧
  (∀ raw pre rp post,
     Runtime.json_Unmarshal_RawPricingResponse rt body = inl raw →
     RawPricingResponse.Prices raw = (pre ++ rp :: post)%list →
     Forall has_both_sides pre →
     RawPrice.Bids rp = [] ∨ RawPrice.Asks rp = [] →
     fst (getPrices rt instruments h) =
       Returns (None, Some (match RawPrice.Bids rp with
                            | [] => "No bid prices recieved."
                            | _ :: _ => "No ask prices recieved."
                            end))).
Proof.
  intros Hin Hstatus Hbody.
  rewrite (getPrices_reply rt _ _ _ _ Hin).
  unfold prices_result. rewrite Hbody, Hstatus. simpl. split.
  - intros err ->. reflexivity.
  - intros raw pre rp post -> Hsplit Hpre Hrp.
    pose proof (parseRawResponse_error raw) as H.
    rewrite Hsplit, (first_error_app pre rp post Hpre),
      (entry_error_Some rp Hrp) in H.
    rewrite H. reflexivity.
Qed.

Lemma getPrices_reports_payload_errors_witness :
  fst (getPrices demo_runtime_bad_json demo_instruments [])
    = Returns (None, Some "unexpected end of JSON input") ∧
  fst (getPrices demo_runtime_empty_side demo_instruments [])
    = Returns (None, Some "No bid prices recieved.").
Proof.
  split.
  - refine (proj1 (getPrices_reports_payload_errors demo_runtime_bad_json
              demo_instruments []
              (pricing_request demo_runtime_bad_json demo_creds
                 (URL.mk (pricing_url demo_creds) "") demo_instruments)
              (Response.mk 200 (ReadOk "")) "" _ _ _)
              "unexpected end of JSON input" _).
    + rewrite getPrices_run. right. right. left. reflexivity.
    + reflexivity.
    + reflexivity.
    + reflexivity.
  - refine (proj2 (getPrices_reports_payload_errors demo_runtime_empty_side
              demo_instruments []
              (pricing_request demo_runtime_empty_side demo_creds
                 (URL.mk (pricing_url demo_creds) "") demo_instruments)
              (Response.mk 200 (ReadOk "prices")) "prices" _ _ _)
              demo_payload_empty_side
              [RawPrice.mk "GBP_USD" true [demo_level 10680420] [demo_level 10681260]]
              (RawPrice.mk "EUR_GBP" true [] [])
              [RawPrice.mk "GBP_JPY" true [] [demo_level 12000100]]
              _ _ _ _).
    + rewrite getPrices_run. right. right. left. reflexivity.
    + reflexivity.
    + reflexivity.
    + reflexivity.
    + reflexivity.
    + repeat constructor.
    + left. reflexivity.
Defined.

(** X6. An order reply with status 201 and a readable body is decoded and
    the decoded response is returned unchanged, with no error; when the
    body does not decode, the decoder's error is returned and no
    response. *)
Theorem placeMarketOrder_returns_decoded_response (rt : Runtime.t)
    (units : Z) (instrument : string) (priceBound : float32)
    (h : list event) (req : Request.t) (resp : Response.t) (body : string) :
  In (Do req (inl resp))
     (snd (placeMarketOrder rt units instrument priceBound h)) →
  Response.StatusCode resp = 201 →
  Response.Body resp = ReadOk body →
  fst (placeMarketOrder rt units instrument priceBound h) =
    Returns (match Runtime.json_Unmarshal_OrderResponse rt body with
             | inl orderResponse => (Some orderResponse, None)
             | inr err => (None, Some err)
             end).
Proof.
  intros Hin Hstatus Hbody.
  rewrite (placeMarketOrder_reply rt _ _ _ _ _ _ Hin).
  unfold order_result. rewrite Hbody, Hstatus. simpl.
  destruct (Runtime.json_Unmarshal_OrderResponse rt body); reflexivity.
Qed.

Lemma placeMarketOrder_returns_decoded_response_witness :
  fst (placeMarketOrder demo_runtime_tradeable 1 "GBP_USD" float32_1_2 [])
    = Returns (Some demo_order_response, None) ∧
  fst (placeMarketOrder demo_runtime_bad_json 1 "GBP_USD" float32_1_2 [])
    = Returns (None, Some "unexpected end of JSON input").
Proof.
  split.
  - refine (placeMarketOrder_returns_decoded_response demo_runtime_tradeable
              1 "GBP_USD" float32_1_2 []
              (order_request demo_creds (URL.mk (order_url demo_creds) "")
                 "1 GBP_USD 1.20000 FOK MARKET DEFAULT")
              (Response.mk 201 (ReadOk "order")) "order" _ _ _).
    + rewrite placeMarketOrder_run. right. right. left. reflexivity.
    + reflexivity.
    + reflexivity.
  - refine (placeMarketOrder_returns_decoded_response demo_runtime_bad_json
              1 "GBP_USD" float32_1_2 []
              (order_request demo_creds (URL.mk (order_url demo_creds) "")
                 "1 GBP_USD 1.20000 FOK MARKET DEFAULT")
              (Response.mk 201 (ReadOk "")) "" _ _ _).
    + rewrite placeMarketOrder_run. right. right. left. reflexivity.
    + reflexivity.
    + reflexivity.
Defined.

(** X7. An error met before the network call ends the call without any
    request being sent: a URL that does not parse, in both API functions,
    and an order that does not serialize, in [placeMarketOrder], are
    returned as the call's error right after the credentials were read. *)
Theorem early_errors_send_nothing (rt : Runtime.t) :
  (∀ instruments h creds err,
     In (Read_config (Decoded creds)) (snd (getPrices rt instruments h)) →
     Runtime.url_Parse rt (pricing_url creds) = inr err →
     getPrices rt instruments h =
       (Returns (None, Some err),
        [Call_getPrices instruments; Read_config (Decoded creds)])) ∧
  (∀ units instrument priceBound h creds err,
     In (Read_config (Decoded creds))
        (snd (placeMarketOrder rt units instrument priceBound h)) →
     Runtime.json_Marshal rt (order_of units instrument priceBound) = inr err →
     placeMarketOrder rt units instrument priceBound h =
       (Returns (None, Some err),
        [Call_placeMarketOrder units instrument priceBound;
         Read_config (Decoded creds)])) ∧
  (∀ units instrument priceBound h creds jsonBody err,
     In (Read_config (Decoded creds))
        (snd (placeMarketOrder rt units instrument priceBound h)) →
     Runtime.json_Marshal rt (order_of units instrument priceBound)
       = inl jsonBody →
     Runtime.url_Parse rt (order_url creds) = inr err →
     placeMarketOrder rt units instrument priceBound h =
       (Returns (None, Some err),
        [Call_placeMarketOrder units instrument priceBound;
         Read_config (Decoded creds)])).
Proof.
  repeat split.
  - intros instruments h creds err Hin Hurl.
    apply getPrices_config in Hin.
    rewrite getPrices_run. cbv zeta. rewrite Hin, Hurl. reflexivity.
  - intros units instrument priceBound h creds err Hin Hm.
    apply placeMarketOrder_config in Hin.
    rewrite placeMarketOrder_run. cbv zeta. rewrite Hin, Hm. reflexivity.
  - intros units instrument priceBound h creds jsonBody err Hin Hm Hurl.
    apply placeMarketOrder_config in Hin.
    rewrite placeMarketOrder_run. cbv zeta. rewrite Hin, Hm, Hurl. reflexivity.
Qed.

Lemma early_errors_send_nothing_witness :
  requests_sent (snd (getPrices demo_runtime_bad_url demo_instruments [])) = [] ∧
  requests_sent
    (snd (placeMarketOrder demo_runtime_bad_marshal 1 "GBP_USD" float32_1_2 []))
    = [] ∧
  requests_sent
    (snd (placeMarketOrder demo_runtime_bad_url 1 "GBP_USD" float32_1_2 []))
    = [].
Proof.
  split; [|split].
  - rewrite (proj1 (early_errors_send_nothing demo_runtime_bad_url)
               demo_instruments [] demo_creds
               "invalid control character in URL").
    + reflexivity.
    + rewrite getPrices_run. right. left. reflexivity.
    + reflexivity.
  - rewrite (proj1 (proj2 (early_errors_send_nothing demo_runtime_bad_marshal))
               1 "GBP_USD" float32_1_2 [] demo_creds "json: unsupported value").
    + reflexivity.
    + rewrite placeMarketOrder_run. right. left. reflexivity.
    + reflexivity.
  - rewrite (proj2 (proj2 (early_errors_send_nothing demo_runtime_bad_url))
               1 "GBP_USD" float32_1_2 [] demo_creds
               "1 GBP_USD 1.20000 FOK MARKET DEFAULT"
               "invalid control character in URL").
    + reflexivity.
    + rewrite placeMarketOrder_run. right. left. reflexivity.
    + reflexivity.
    + reflexivity.
Defined.

(** X8. [placeMarketOrder] does not validate its arguments: for every
    unit count (zero and negative included), instrument (the empty string
    included) and price bound, once the credentials are read, the order
    serializes and the account's URL parses, one [POST] request goes to the
    client; its body is the serialized order, its [Content-Type] is
    [application/json] and its [Authorization] is the bearer token. What
    the call returns is decided by the reply. *)
Theorem placeMarketOrder_sends_any_order (rt : Runtime.t) (units : Z)
    (instrument : string) (priceBound : float32) (h : list event)
    (creds : Credentials.t) (jsonBody : string) (u : URL.t) :
  In (Read_config (Decoded creds))
     (snd (placeMarketOrder rt units instrument priceBound h)) →
  Runtime.json_Marshal rt (order_of units instrument priceBound) = inl jsonBody →
  Runtime.url_Parse rt (order_url creds) = inl u →
  ∃ req reply,
    placeMarketOrder rt units instrument priceBound h =
      (Returns (order_result rt reply),
       [Call_placeMarketOrder units instrument priceBound;
        Read_config (Decoded creds); Do req reply]) ∧
    Request.Method req = "POST" ∧
    Request.URL req = u ∧
    Request.Body req = Some jsonBody ∧
    Request.Header req !! "Content-Type" = Some ["application/json"] ∧
    Request.Header req !! "Authorization"
      = Some ["Bearer " ++ Credentials.BearerToken creds].
Proof.
  intros Hin Hm Hurl. apply placeMarketOrder_config in Hin.
  rewrite placeMarketOrder_run. cbv zeta. rewrite Hin, Hm, Hurl.
  eexists _, _. split; [reflexivity|].
  repeat split.
Qed.

Lemma placeMarketOrder_sends_any_order_witness :
  map Request.Body
    (requests_sent (snd (placeMarketOrder demo_runtime_tradeable (-5) ""
                           float32_zero [])))
    = [Some "-5  0.00000 FOK MARKET DEFAULT"].
Proof.
  destruct (placeMarketOrder_sends_any_order demo_runtime_tradeable (-5) ""
              float32_zero [] demo_creds "-5  0.00000 FOK MARKET DEFAULT"
              (URL.mk (order_url demo_creds) ""))
    as (req & reply & Hrun & _ & _ & Hbody & _).
  - rewrite placeMarketOrder_run. right. left. reflexivity.
  - reflexivity.
  - reflexivity.
  - rewrite Hrun. simpl. rewrite Hbody. reflexivity.
Defined.

(** ** What the results of the API functions tell *)

Section Results.
Context (rt : Runtime.t).

Lemma parseRawResponse_exclusive (raw : RawPricingResponse.t) :
  (∃ r, parseRawResponse raw = (Some r, None)) ∨
  (∃ e, parseRawResponse raw = (None, Some e)).
Proof.
  pose proof (parseRawResponse_error raw) as H.
  destruct (first_error (RawPricingResponse.Prices raw)); eauto.
Qed.

(** A reply yields a response only when it has status 200 and a body that
    decodes and reshapes; otherwise it yields an error and no response. *)
Lemma prices_result_cases (reply : Response.t + error) :
  (∃ response resp body raw,
     prices_result rt reply = (Some response, None) ∧
     reply = inl resp ∧
     Response.StatusCode resp = 200 ∧
     Response.Body resp = ReadOk body ∧
     Runtime.json_Unmarshal_RawPricingResponse rt body = inl raw ∧
     parseRawResponse raw = (Some response, None)) ∨
  (∃ err, prices_result rt reply = (None, Some err)).
Proof.
  unfold prices_result. destruct reply as [resp|err]; [|eauto].
  destruct (Response.Body resp) as [body|err] eqn:Hbody; [|eauto].
  destruct (Response.StatusCode resp =? 200) eqn:Hs; simpl; [|eauto].
  apply Z.eqb_eq in Hs.
  destruct (Runtime.json_Unmarshal_RawPricingResponse rt body) as [raw|err]
    eqn:Hj; [|eauto].
  destruct (parseRawResponse_exclusive raw) as [[r Hr]|[e He]].
  - rewrite Hr. left. exists r, resp, body, raw. auto 10.
  - rewrite He. eauto.
Qed.

Lemma order_result_cases (reply : Response.t + error) :
  (∃ orderResponse resp body,
     order_result rt reply = (Some orderResponse, None) ∧
     reply = inl resp ∧
     Response.StatusCode resp = 201 ∧
     Response.Body resp = ReadOk body ∧
     Runtime.json_Unmarshal_OrderResponse rt body = inl orderResponse) ∨
  (∃ err, order_result rt reply = (None, Some err)).
Proof.
  unfold order_result. destruct reply as [resp|err]; [|eauto].
  destruct (Response.Body resp) as [body|err] eqn:Hbody; [|eauto].
  destruct (Response.StatusCode resp =? 201) eqn:Hs; simpl; [|eauto].
  apply Z.eqb_eq in Hs.
  destruct (Runtime.json_Unmarshal_OrderResponse rt body) as [o|err] eqn:Hj;
    [|eauto].
  left. exists o, resp, body. auto 10.
Qed.

(** How a call of [getPrices] ends: the process exits at the read of the
    credentials; or the call fails before the network; or one [GET]
    request is sent and its reply decides. *)
Lemma getPrices_outcomes (instruments : list string) (h : list event) :
  (∃ r err,
     config_failure r = Some err ∧
     getPrices rt instruments h =
       (Exits 1, [Call_getPrices instruments; Read_config r; Log_Fatal err])) ∨
  (∃ creds err,
     getPrices rt instruments h =
       (Returns (None, Some err),
        [Call_getPrices instruments; Read_config (Decoded creds)])) ∨
  (∃ creds req reply,
     Request.Method req = "GET" ∧
     getPrices rt instruments h =
       (Returns (prices_result rt reply),
        [Call_getPrices instruments; Read_config (Decoded creds);
         Do req reply])).
Proof.
  rewrite getPrices_run. cbv zeta.
  destruct (Runtime.config_json rt _) as [e|e|creds].
  - left. exists (OpenFails e), e. split; reflexivity.
  - left. exists (DecodeFails e), e. split; reflexivity.
  - right. destruct (Runtime.url_Parse rt _) as [u|err].
    + right. eexists creds, _, _. split; [|reflexivity]. reflexivity.
    + left. exists creds, err. reflexivity.
Qed.

Lemma placeMarketOrder_outcomes (units : Z) (instrument : string)
    (priceBound : float32) (h : list event) :
  let call := Call_placeMarketOrder units instrument priceBound in
  (∃ r err,
     config_failure r = Some err ∧
     placeMarketOrder rt units instrument priceBound h =
       (Exits 1, [call; Read_config r; Log_Fatal err])) ∨
  (∃ creds err,
     placeMarketOrder rt units instrument priceBound h =
       (Returns (None, Some err), [call; Read_config (Decoded creds)])) ∨
  (∃ creds req reply,
     Request.Method req = "POST" ∧
     placeMarketOrder rt units instrument priceBound h =
       (Returns (order_result rt reply),
        [call; Read_config (Decoded creds); Do req reply])).
Proof.
  cbv zeta. rewrite placeMarketOrder_run. cbv zeta.
  destruct (Runtime.config_json rt _) as [e|e|creds].
  - left. exists (OpenFails e), e. split; reflexivity.
  - left. exists (DecodeFails e), e. split; reflexivity.
  - right. destruct (Runtime.json_Marshal rt _) as [jsonBody|err].
    + destruct (Runtime.url_Parse rt _) as [u|err].
      * right. eexists creds, _, _. split; [|reflexivity]. reflexivity.
      * left. exists creds, err. reflexivity.
    + left. exists creds, err. reflexivity.
Qed.
End Results.

(** X9. Both API functions return exactly one of a response and an error:
    a non-nil response comes with a nil error and a nil response with a
    non-nil error. *)
Theorem api_results_exclusive (rt : Runtime.t) :
  (∀ instruments h p e,
     fst (getPrices rt instruments h) = Returns (p, e) →
     (is_Some p ∧ e = None) ∨ (p = None ∧ is_Some e)) ∧
  (∀ units instrument priceBound h o e,
     fst (placeMarketOrder rt units instrument priceBound h) = Returns (o, e) →
     (is_Some o ∧ e = None) ∨ (o = None ∧ is_Some e)).
Proof.
  split.
  - intros instruments h p e.
    destruct (getPrices_outcomes rt instruments h)
      as [(r & err & _ & ->)|[(creds & err & ->)|(creds & req & reply & _ & ->)]];
      cbn [fst]; intros H; [discriminate H| |].
    + injection H as <- <-. right. split; [reflexivity|eauto].
    + injection H as H.
      destruct (prices_result_cases rt reply)
        as [(response & resp & body & raw & Hr & _)|(err & Hr)];
        rewrite Hr in H; injection H as <- <-; [left|right]; split; eauto.
  - intros units instrument priceBound h o e.
    destruct (placeMarketOrder_outcomes rt units instrument priceBound h)
      as [(r & err & _ & ->)|[(creds & err & ->)|(creds & req & reply & _ & ->)]];
      cbn [fst]; intros H; [discriminate H| |].
    + injection H as <- <-. right. split; [reflexivity|eauto].
    + injection H as H.
      destruct (order_result_cases rt reply)
        as [(orderResponse & resp & body & Hr & _)|(err & Hr)];
        rewrite Hr in H; injection H as <- <-; [left|right]; split; eauto.
Qed.

Lemma api_results_exclusive_witness :
  (is_Some (Some (demo_response true)) ∧ @None error = None) ∨
  (Some (demo_response true) = None ∧ is_Some (@None error)).
Proof.
  refine (proj1 (api_results_exclusive demo_runtime_tradeable)
            demo_instruments [] (Some (demo_response true)) None _).
  rewrite getPrices_run. reflexivity.
Defined.

(** X10. [getPrices] returns a response only after a reply with status 200
    whose body was read and decoded, and the response is what
    [parseRawResponse] makes of the decoded payload. *)
Theorem getPrices_success_only_from_200 (rt : Runtime.t)
    (instruments : list string) (h : list event)
    (response : PricingResponse.t) (e : option error) :
  fst (getPrices rt instruments h) = Returns (Some response, e) →
  ∃ req resp body raw,
    In (Do req (inl resp)) (snd (getPrices rt instruments h)) ∧
    Request.Method req = "GET" ∧
    Response.StatusCode resp = 200 ∧
    Response.Body resp = ReadOk body ∧
    Runtime.json_Unmarshal_RawPricingResponse rt body = inl raw ∧
    parseRawResponse raw = (Some response, None) ∧
    e = None.
Proof.
  destruct (getPrices_outcomes rt instruments h)
    as [(r & err & _ & ->)|[(creds & err & ->)|(creds & req & reply & Hm & ->)]];
    cbn [fst snd]; intros H; try discriminate H.
  injection H as H.
  destruct (prices_result_cases rt reply)
    as [(response' & resp & body & raw & Hr & -> & Hs & Hb & Hj & Hp)|(err & Hr)];
    rewrite Hr in H; [|discriminate H].
  injection H as -> <-.
  exists req, resp, body, raw. repeat split; try assumption.
  right. right. left. reflexivity.
Qed.

Lemma getPrices_success_only_from_200_witness :
  ∃ req resp,
    In (Do req (inl resp))
       (snd (getPrices demo_runtime_tradeable demo_instruments [])) ∧
    Response.StatusCode resp = 200.
Proof.
  destruct (getPrices_success_only_from_200 demo_runtime_tradeable
              demo_instruments [] (demo_response true) None)
    as (req & resp & body & raw & Hin & _ & Hs & _).
  - rewrite getPrices_run. reflexivity.
  - exists req, resp. split; assumption.
Defined.

(** ** The runs of the driver *)

Section DriverCases.
Context (rt : Runtime.t).

(** Every run of the driver, by the outcome of its pricing call and, when
    it comes to that, of its order call. *)
Lemma EntryPoint_cases (h : list event) :
  let g := getPrices rt ["GBP_USD"; "EUR_GBP"; "GBP_JPY"] h in
  (fst g = Exits 1 ∧ EntryPoint rt h = (Exits 1, snd g)) ∨
  (∃ e,
     fst g = Returns (None, Some e) ∧
     EntryPoint rt h =
       (Exits 1, (snd g ++ [Log_Fatal ("Error retrieving prices: " ++ e)])%list)) ∨
  (∃ response,
     fst g = Returns (Some response, None) ∧
     let es1 := (snd g ++ fetched_output response)%list in
     match PricingResponse.Prices response !! 0%nat with
     | None => EntryPoint rt h = (Panics "index out of range", es1)
     | Some price0 =>
         if Price.Tradeable price0 then
           let po := placeMarketOrder rt 1 "GBP_USD" (Price.Ask price0)
                       (h ++ es1)%list in
           (fst po = Exits 1 ∧
            EntryPoint rt h = (Exits 1, (es1 ++ snd po)%list)) ∨
           (∃ e,
              fst po = Returns (None, Some e) ∧
              EntryPoint rt h =
                (Returns tt,
                 (es1 ++ snd po ++
                  [Log_Printf ("Error placing market order: " ++ e)])%list)) ∨
           (∃ o,
              fst po = Returns (Some o, None) ∧
              EntryPoint rt h =
                (Returns tt,
                 (es1 ++ snd po ++
                  [Println "Market order placed successfully.";
                   Dump_order (Some o)])%list))
         else
           EntryPoint rt h =
             (Returns tt,
              (es1 ++
               [Println "Error executing market order! Instrument currently not tradeable."])%list)
     end).
Proof.
  cbv zeta. rewrite EntryPoint_run.
  destruct (getPrices_outcomes rt ["GBP_USD"; "EUR_GBP"; "GBP_JPY"] h)
    as [(r & err & _ & ->)|[(creds & err & ->)|(creds & req & reply & _ & ->)]];
    cbn [fst snd].
  - left. split; reflexivity.
  - right. left. exists err. split; reflexivity.
  - destruct (prices_result_cases rt reply)
      as [(response & resp & body & raw & -> & _)|(err & ->)].
    2:{ right. left. exists err. split; reflexivity. }
    right. right. exists response. split; [reflexivity|]. cbv zeta.
    destruct (PricingResponse.Prices response !! 0%nat) as [price0|];
      [|reflexivity].
    destruct (Price.Tradeable price0); [|reflexivity].
    match goal with
    | |- context [placeMarketOrder rt 1 "GBP_USD" ?pb ?hh] =>
        destruct (placeMarketOrder_outcomes rt 1 "GBP_USD" pb hh)
          as [(r & err & _ & ->)|[(creds' & err & ->)
             |(creds' & req' & reply' & _ & ->)]]
    end; cbn [fst snd].
    + left. split; reflexivity.
    + right. left. exists err. split; reflexivity.
    + destruct (order_result_cases rt reply')
        as [(o & resp' & body' & -> & _)|(err & ->)].
      * right. right. exists o. split; reflexivity.
      * right. left. exists err. split; reflexivity.
Qed.
End DriverCases.

(** X11. The driver panics in one situation only: the pricing call
    succeeded with an empty list of prices, and indexing its first record
    is out of range. In particular it never dereferences a nil response,
    and a panic comes after the fetch was reported and before any order. *)
Theorem EntryPoint_panics_iff_no_prices (rt : Runtime.t) (h : list event) :
  (∀ msg, fst (EntryPoint rt h) = Panics msg → msg = "index out of range") ∧
  ((∃ msg, fst (EntryPoint rt h) = Panics msg) ↔
   (∃ response,
      fst (getPrices rt ["GBP_USD"; "EUR_GBP"; "GBP_JPY"] h)
        = Returns (Some response, None) ∧
      PricingResponse.Prices response = [] ∧
      snd (EntryPoint rt h) =
        (snd (getPrices rt ["GBP_USD"; "EUR_GBP"; "GBP_JPY"] h) ++
         fetched_output response)%list)).
Proof.
  pose proof (EntryPoint_cases rt h) as Hc. cbv zeta in Hc.
  destruct Hc as [[Hg He]|[(e & Hg & He)|(response & Hg & Hc)]].
  - rewrite He. cbn [fst]. split; [intros msg H; discriminate H|].
    split; [intros [msg H]; discriminate H|].
    intros (response & H & _). rewrite Hg in H. discriminate H.
  - rewrite He. cbn [fst]. split; [intros msg H; discriminate H|].
    split; [intros [msg H]; discriminate H|].
    intros (response & H & _). rewrite Hg in H. discriminate H.
  - destruct (PricingResponse.Prices response) as [|price0 rest] eqn:Hp.
    + rewrite Hc. cbn [fst snd]. split.
      * intros msg H. injection H as <-. reflexivity.
      * split; [|eauto]. intros _. exists response. rewrite Hp. auto.
    + cbn [lookup list_lookup] in Hc.
      assert (Hno : ∀ msg, fst (EntryPoint rt h) ≠ Panics msg).
      { intros msg. destruct (Price.Tradeable price0).
        - destruct Hc as [[_ ->]|[(e & _ & ->)|(o & _ & ->)]]; discriminate.
        - rewrite Hc. discriminate. }
      split; [intros msg H; destruct (Hno msg H)|].
      split; [intros [msg H]; destruct (Hno msg H)|].
      intros (response' & H & Hnil & _). rewrite Hg in H.
      injection H as <-. rewrite Hp in Hnil. discriminate Hnil.
Qed.

Lemma EntryPoint_panics_iff_no_prices_witness :
  ∃ msg, fst (EntryPoint demo_runtime_no_prices []) = Panics msg.
Proof.
  apply (proj2 (proj2 (EntryPoint_panics_iff_no_prices demo_runtime_no_prices []))).
  exists (PricingResponse.mk "2024-01-01T00:00:00Z" []).
  rewrite EntryPoint_run, getPrices_run. repeat split.
Defined.

(** X12. A pricing call that returns an error halts the driver: it logs
    "Error retrieving prices: " followed by the error and exits with
    status 1, without attempting an order. *)
Theorem EntryPoint_halts_on_pricing_error (rt : Runtime.t) (h : list event)
    (p : option PricingResponse.t) (e : error) (es : list event) :
  getPrices rt ["GBP_USD"; "EUR_GBP"; "GBP_JPY"] h = (Returns (p, Some e), es) →
  EntryPoint rt h =
    (Exits 1, (es ++ [Log_Fatal ("Error retrieving prices: " ++ e)])%list) ∧
  orders_attempted (snd (EntryPoint rt h)) = [] ∧
  orders_sent (snd (EntryPoint rt h)) = [].
Proof.
  intros Hget.
  assert (Hrun : EntryPoint rt h =
    (Exits 1, (es ++ [Log_Fatal ("Error retrieving prices: " ++ e)])%list)).
  { rewrite EntryPoint_run, Hget. destruct p; reflexivity. }
  split; [exact Hrun|]. rewrite Hrun. cbn [snd].
  pose proof (getPrices_trace rt ["GBP_USD"; "EUR_GBP"; "GBP_JPY"] h) as Hg.
  rewrite Hget in Hg. cbn [snd] in Hg. destruct Hg as (Hga & _ & _ & Hgs).
  autorewrite with trace. rewrite Hga, Hgs. split; reflexivity.
Qed.

Lemma EntryPoint_halts_on_pricing_error_witness :
  fst (EntryPoint demo_runtime_500 []) = Exits 1 ∧
  last (snd (EntryPoint demo_runtime_500 [])) =
    Some (Log_Fatal "Error retrieving prices: 500 response code received, Prices API request not working as expected").
Proof.
  destruct (EntryPoint_halts_on_pricing_error demo_runtime_500 [] None
              "500 response code received, Prices API request not working as expected"
              (snd (getPrices demo_runtime_500 demo_instruments [])))
    as [Hrun _].
  - rewrite getPrices_run. reflexivity.
  - rewrite Hrun. cbn [fst snd]. split; [reflexivity|]. apply last_snoc.
Defined.

(** X13. The result of the order call does not stop the driver: when
    [placeMarketOrder] returns an error the driver logs "Error placing
    market order: " followed by the error, and when it returns a response
    the driver prints "Market order placed successfully." and dumps the
    response; in both cases the driver then returns normally. *)
Theorem EntryPoint_reports_order_result (rt : Runtime.t) (h : list event)
    (response : PricingResponse.t) (es : list event)
    (price0 : Price.t) (rest : list Price.t)
    (o : option OrderResponse.t) (e : option error) (es2 : list event) :
  getPrices rt ["GBP_USD"; "EUR_GBP"; "GBP_JPY"] h
    = (Returns (Some response, None), es) →
  PricingResponse.Prices response = price0 :: rest →
  Price.Tradeable price0 = true →
  placeMarketOrder rt 1 "GBP_USD" (Price.Ask price0)
    (h ++ es ++ fetched_output response)%list = (Returns (o, e), es2) →
  EntryPoint rt h =
    (Returns tt,
     (es ++ fetched_output response ++ es2 ++
      match e with
      | Some err => [Log_Printf ("Error placing market order: " ++ err)]
      | None => [Println "Market order placed successfully."; Dump_order o]
      end)%list).
Proof.
  intros Hget Hprices Htrade Hplace.
  assert (H0 : PricingResponse.Prices response !! 0%nat = Some price0)
    by (rewrite Hprices; reflexivity).
  rewrite EntryPoint_run, Hget. cbv zeta. rewrite H0, Htrade, Hplace.
  destruct o, e; rewrite <- ?app_assoc; reflexivity.
Qed.

Lemma EntryPoint_reports_order_result_witness :
  fst (EntryPoint demo_runtime_order_rejected []) = Returns tt ∧
  last (snd (EntryPoint demo_runtime_order_rejected [])) =
    Some (Log_Printf "Error placing market order: unexpected status code: 400, body: rejected").
Proof.
  rewrite (EntryPoint_reports_order_result demo_runtime_order_rejected []
             (demo_response true)
             (snd (getPrices demo_runtime_order_rejected demo_instruments []))
             (demo_price0 true)
             (drop 1 (PricingResponse.Prices (demo_response true))) None
             (Some "unexpected status code: 400, body: rejected")
             (snd (placeMarketOrder demo_runtime_order_rejected 1 "GBP_USD"
                     (Price.Ask (demo_price0 true))
                     (snd (getPrices demo_runtime_order_rejected demo_instruments [])
                      ++ fetched_output (demo_response true)))%list)).
  - split; [reflexivity|]. vm_compute. reflexivity.
  - rewrite getPrices_run. reflexivity.
  - reflexivity.
  - reflexivity.
  - rewrite placeMarketOrder_run. reflexivity.
Defined.

Lemma EntryPoint_driver_run (rt : Runtime.t) (h : list event) :
  driver_run rt (EntryPoint rt h).
Proof.
  rewrite EntryPoint_run.
  destruct (getPrices_outcomes rt ["GBP_USD"; "EUR_GBP"; "GBP_JPY"] h)
    as [(r & err & Hf & ->)|[(creds & err & ->)|(creds & req & reply & Hm & ->)]].
  - apply run_no_credentials. exact Hf.
  - apply run_pricing_not_sent.
  - destruct (prices_result_cases rt reply)
      as [(response & resp & body & raw & Hr & _)|(err & Hr)]; rewrite Hr.
    2:{ apply (run_pricing_failed rt creds req reply err Hm Hr). }
    cbv zeta.
    destruct (PricingResponse.Prices response) as [|price0 rest] eqn:Hp.
    { apply (run_no_prices rt creds req reply response Hm Hr Hp). }
    cbn [lookup list_lookup].
    destruct (Price.Tradeable price0) eqn:Ht.
    2:{ apply (run_not_tradeable rt creds req reply response price0 rest
                 Hm Hr Hp Ht). }
    match goal with
    | |- context [placeMarketOrder rt 1 "GBP_USD" ?pb ?hh] =>
        destruct (placeMarketOrder_outcomes rt 1 "GBP_USD" pb hh)
          as [(r & err & Hf & ->)|[(creds' & err & ->)
             |(creds' & req' & reply' & Hm' & ->)]]
    end.
    + apply (run_order_no_credentials rt creds req reply response price0 rest
               r err Hm Hr Hp Ht Hf).
    + apply (run_order_not_sent rt creds req reply response price0 rest
               creds' err Hm Hr Hp Ht).
    + destruct (order_result_cases rt reply')
        as [(o & resp' & body' & Hr' & _)|(err & Hr')]; rewrite Hr'.
      * apply (run_order_placed rt creds req reply response price0 rest
                 creds' req' reply' o Hm Hr Hp Ht Hm' Hr').
      * apply (run_order_failed rt creds req reply response price0 rest
                 creds' req' reply' err Hm Hr Hp Ht Hm' Hr').
Qed.

(** X14. A failed read of the configuration file is fatal wherever it
    happens in a run of the driver, at the pricing call or at the order
    call: the read is followed by the log of its error and the process
    exits with status 1, so nothing is sent after it. *)
Theorem EntryPoint_halts_on_config_failure (rt : Runtime.t) (h : list event)
    (r : config_outcome) (err : error) :
  In (Read_config r) (snd (EntryPoint rt h)) →
  config_failure r = Some err →
  fst (EntryPoint rt h) = Exits 1 ∧
  ∃ before,
    snd (EntryPoint rt h) = (before ++ [Read_config r; Log_Fatal err])%list.
Proof.
  intros Hin Hfail.
  destruct (EntryPoint_driver_run rt h); cbn [fst snd] in *;
    unfold fetched_trace in Hin;
    repeat (rewrite in_app_iff in Hin); simpl in Hin;
    repeat (destruct Hin as [Hin|Hin]; try discriminate Hin);
    try contradiction;
    try (injection Hin as <-; simpl in Hfail; discriminate Hfail).
  - injection Hin as <-.
    assert (err0 = err) as -> by congruence.
    split; [reflexivity|]. exists [Call_getPrices driver_instruments]. reflexivity.
  - injection Hin as <-.
    assert (err0 = err) as -> by congruence.
    split; [reflexivity|].
    exists (fetched_trace creds req reply response ++
            [Call_placeMarketOrder 1 "GBP_USD" (Price.Ask price0)])%list.
    rewrite <- app_assoc. reflexivity.
Qed.

Lemma EntryPoint_halts_on_config_failure_witness :
  fst (EntryPoint demo_runtime_no_config []) = Exits 1 ∧
  fst (EntryPoint demo_runtime_config_removed []) = Exits 1 ∧
  length (requests_sent (snd (EntryPoint demo_runtime_config_removed []))) = 1%nat.
Proof.
  split; [|split].
  - refine (proj1 (EntryPoint_halts_on_config_failure demo_runtime_no_config []
              (OpenFails "open config.json: no such file or directory")
              "open config.json: no such file or directory" _ _)).
    + vm_compute. right. left. reflexivity.
    + reflexivity.
  - refine (proj1 (EntryPoint_halts_on_config_failure demo_runtime_config_removed []
              (OpenFails "open config.json: no such file or directory")
              "open config.json: no such file or directory" _ _)).
    + vm_compute. do 6 right. left. reflexivity.
    + reflexivity.
  - vm_compute. reflexivity.
Defined.

(** X15. A run of the driver makes at most two network round trips: none,
    or one [GET] for the prices, or that [GET] followed by one [POST] for
    the order. An order request is never sent without a pricing request
    before it. *)
Theorem EntryPoint_round_trips (rt : Runtime.t) (h : list event) :
  requests_sent (snd (EntryPoint rt h)) = [] ∨
  (∃ get,
     requests_sent (snd (EntryPoint rt h)) = [get] ∧
     Request.Method get = "GET") ∨
  (∃ get post,
     requests_sent (snd (EntryPoint rt h)) = [get; post] ∧
     Request.Method get = "GET" ∧ Request.Method post = "POST").
Proof.
  destruct (EntryPoint_driver_run rt h); cbn [snd];
    unfold fetched_trace; rewrite ?requests_sent_app; simpl; eauto 10.
Qed.

(** X16. The driver attempts an order only after a pricing reply with
    status 200 whose decoded payload reshaped to a response with a
    tradeable first record; the order is then for one unit of "GBP_USD"
    bounded at that record's ask. *)
Theorem EntryPoint_order_only_when_tradeable (rt : Runtime.t) (h : list event)
    (order : Z * string * float32) :
  In order (orders_attempted (snd (EntryPoint rt h))) →
  ∃ req resp response price0,
    In (Do req (inl resp)) (snd (EntryPoint rt h)) ∧
    Request.Method req = "GET" ∧
    Response.StatusCode resp = 200 ∧
    prices_result rt (inl resp) = (Some response, None) ∧
    PricingResponse.Prices response !! 0%nat = Some price0 ∧
    Price.Tradeable price0 = true ∧
    order = (1, "GBP_USD", Price.Ask price0).
Proof.
  destruct (EntryPoint_driver_run rt h) as
    [ | | | | 
    | creds req reply response price0 rest r err Hm Hr Hp Ht Hf
    | creds req reply response price0 rest creds' err Hm Hr Hp Ht
    | creds req reply response price0 rest creds' req' reply' err Hm Hr Hp Ht Hm' Hr'
    | creds req reply response price0 rest creds' req' reply' o Hm Hr Hp Ht Hm' Hr'];
    cbn [snd]; unfold fetched_trace; rewrite ?orders_attempted_app; simpl;
    intros Hin.
  1-5: destruct Hin.
  all: destruct Hin as [<- | []];
    destruct (prices_result_cases rt reply)
      as [(response' & resp & body & raw & Hr2 & -> & Hs & _)|(e & Hr2)];
    rewrite Hr2 in Hr; try discriminate Hr; injection Hr as ->;
    exists req, resp, response, price0;
    (split; [simpl; auto 10|]);
    rewrite Hp; repeat split; assumption.
Qed.

Lemma EntryPoint_order_only_when_tradeable_witness :
  ∃ req resp,
    In (Do req (inl resp)) (snd (EntryPoint demo_runtime_tradeable [])) ∧
    Response.StatusCode resp = 200.
Proof.
  destruct (EntryPoint_order_only_when_tradeable demo_runtime_tradeable []
              (1, "GBP_USD", S754_finite false 7131156 (-23)))
    as (req & resp & response & price0 & Hin & _ & Hs & _).
  - vm_compute. left. reflexivity.
  - exists req, resp. split; assumption.
Defined.

(** ** The texts of an order *)

Lemma Z_to_int_proper (n : Z) :
  Z.to_int n ≠ Decimal.Pos Decimal.Nil ∧ Z.to_int n ≠ Decimal.Neg Decimal.Nil.
Proof.
  destruct n as [|p|p]; simpl; split; try discriminate;
    intros H; injection H as H;
    exact (DecimalPos.Unsigned.to_uint_nonnil p H).
Qed.

Lemma Sprintf_d_parses (n : Z) :
  option_map Z.of_int (NilZero.int_of_string (Sprintf_d n)) = Some n.
Proof.
  unfold Sprintf_d. destruct (Z_to_int_proper n) as [Hp Hn].
  rewrite (NilZero.isi _ Hp Hn). simpl. rewrite DecimalZ.of_to. reflexivity.
Qed.

(** X17. The [Units] text of an order reads back as the unit count: parsed
    as a signed decimal number it gives the count [placeMarketOrder] was
    called with, so two different counts never give the same text. *)
Theorem order_units_round_trip (units : Z) (instrument : string)
    (priceBound : float32) :
  option_map Z.of_int
    (NilZero.int_of_string
       (MarketOrder.Units
          (MarketOrderRequest.Order (order_of units instrument priceBound))))
    = Some units ∧
  ∀ units' instrument' priceBound',
    MarketOrder.Units
      (MarketOrderRequest.Order (order_of units' instrument' priceBound'))
    = MarketOrder.Units
        (MarketOrderRequest.Order (order_of units instrument priceBound)) →
    units' = units.
Proof.
  split; [apply Sprintf_d_parses|].
  intros units' instrument' priceBound'. simpl. intros H.
  pose proof (Sprintf_d_parses units') as H'. rewrite H in H'.
  rewrite Sprintf_d_parses in H'. injection H' as ->. reflexivity.
Qed.

Lemma order_units_round_trip_witness :
  option_map Z.of_int (NilZero.int_of_string "-250") = Some (-250).
Proof.
  exact (proj1 (order_units_round_trip (-250) "GBP_USD" float32_1_2)).
Defined.

Lemma round_half_even_nearest (num den : Z) :
  0 ≤ num → 0 < den →
  2 * Z.abs (round_half_even num den * den - num) ≤ den ∧
  (2 * Z.abs (round_half_even num den * den - num) = den →
   Z.even (round_half_even num den) = true) ∧
  0 ≤ round_half_even num den.
Proof.
  intros Hnum Hden. unfold round_half_even. cbv zeta.
  pose proof (Z.div_mod num den ltac:(lia)) as Hdm.
  pose proof (Z.mod_pos_bound num den Hden) as Hr.
  pose proof (Z.div_pos num den Hnum Hden) as Hq.
  set (q := num / den) in *. set (r := num mod den) in *.
  assert (Hnq : num = q * den + r) by lia.
  destruct (Z.ltb_spec (2 * r) den) as [Hlt|Hge].
  - replace (q * den - num) with (- r) by lia.
    rewrite Z.abs_opp, Z.abs_eq by lia. repeat split; lia.
  - destruct (Z.ltb_spec den (2 * r)) as [Hgt|Hle].
    + replace ((q + 1) * den - num) with (den - r) by lia.
      rewrite Z.abs_eq by lia. repeat split; lia.
    + destruct (Z.even q) eqn:He.
      * replace (q * den - num) with (- r) by lia.
        rewrite Z.abs_opp, Z.abs_eq by lia. repeat split; lia || auto.
      * replace ((q + 1) * den - num) with (den - r) by lia.
        rewrite Z.abs_eq by lia. repeat split; try lia.
        intros _. rewrite Z.even_add, He. reflexivity.
Qed.

(** X18. The [PriceBound] text of an order is the price bound rounded to
    the nearest multiple of 0.00001, ties to the even one: for a finite
    [float32] of mantissa [m] and exponent [e], the integer [n] whose
    digits are printed (all but the last five before the point) is exactly
    [m * 2^e * 10^5] when [e] is not negative, and otherwise differs from
    it by at most one half. *)
Theorem price_bound_rounds_to_nearest (s : bool) (m : positive) (e : Z)
    (units : Z) (instrument : string) :
  let n := scaled5 m e in
  MarketOrder.PriceBound
    (MarketOrderRequest.Order (order_of units instrument (S754_finite s m e)))
    = ((if s then "-" else "") ++ Sprintf_d (n / 100000) ++ "." ++
       pad5 (Sprintf_d (n mod 100000))) ∧
  0 ≤ n ∧
  (0 ≤ e → n = Z.pos m * 2 ^ e * 100000) ∧
  (e < 0 →
   2 * Z.abs (n * 2 ^ (- e) - Z.pos m * 100000) ≤ 2 ^ (- e) ∧
   (2 * Z.abs (n * 2 ^ (- e) - Z.pos m * 100000) = 2 ^ (- e) →
    Z.even n = true)).
Proof.
  cbv zeta. split; [reflexivity|]. unfold scaled5.
  destruct (Z.leb_spec 0 e) as [Hpos|Hneg].
  - split; [|split; [reflexivity|lia]].
    pose proof (Z.pow_nonneg 2 e ltac:(lia)). nia.
  - assert (Hden : 0 < 2 ^ (- e)) by (apply Z.pow_pos_nonneg; lia).
    destruct (round_half_even_nearest (Z.pos m * 100000) (2 ^ (- e))
                ltac:(lia) Hden) as (Hb & He & Hn).
    split; [exact Hn|]. split; [lia|]. intros _. split; assumption.
Qed.

Lemma price_bound_rounds_to_nearest_witness :
  scaled5 10066330 (-23) = 120000 ∧
  2 * Z.abs (120000 * 2 ^ 23 - 10066330 * 100000) ≤ 2 ^ 23.
Proof.
  assert (H : scaled5 10066330 (-23) = 120000) by (vm_compute; reflexivity).
  split; [exact H|].
  pose proof (proj1 (proj2 (proj2 (proj2
    (price_bound_rounds_to_nearest false 10066330 (-23) 1 "GBP_USD")))
    ltac:(lia))) as Hb.
  rewrite H in Hb. exact Hb.
Defined.

(** X19. The two endpoints: the request of [getPrices] is built from the
    parse of "https://api-fxpractice.oanda.com/v3/accounts/<id>/pricing"
    and the request of [placeMarketOrder] from the parse of
    ".../v3/accounts/<id>/orders", where <id> is the account identifier
    the call read, whatever characters it holds; [getPrices] changes the
    query of the parsed URL only, and sends no body. *)
Theorem requests_target_account_endpoints (rt : Runtime.t) :
  (∀ instruments h creds req reply,
     In (Read_config (Decoded creds)) (snd (getPrices rt instruments h)) →
     In (Do req reply) (snd (getPrices rt instruments h)) →
     ∃ u,
       Runtime.url_Parse rt
         ("https://api-fxpractice.oanda.com/v3/accounts/" ++
          Credentials.AccountID creds ++ "/pricing") = inl u ∧
       URL.Base (Request.URL req) = URL.Base u ∧
       Request.Method req = "GET" ∧
       Request.Body req = None) ∧
  (∀ units instrument priceBound h creds req reply,
     In (Read_config (Decoded creds))
        (snd (placeMarketOrder rt units instrument priceBound h)) →
     In (Do req reply)
        (snd (placeMarketOrder rt units instrument priceBound h)) →
     Runtime.url_Parse rt
       ("https://api-fxpractice.oanda.com/v3/accounts/" ++
        Credentials.AccountID creds ++ "/orders") = inl (Request.URL req) ∧
     Request.Method req = "POST").
Proof.
  split.
  - intros instruments h creds req reply Hr.
    apply getPrices_config in Hr.
    rewrite getPrices_run. cbv zeta. rewrite Hr.
    rewrite <- pricing_url_eq.
    destruct (Runtime.url_Parse rt (pricing_url creds)) as [u|err];
      [|simpl; intros [H|[H|[]]]; discriminate H].
    simpl. intros [H|[H|[H|[]]]]; try discriminate H.
    injection H as <- _. exists u. repeat split.
  - intros units instrument priceBound h creds req reply Hr.
    apply placeMarketOrder_config in Hr.
    rewrite placeMarketOrder_run. cbv zeta. rewrite Hr.
    rewrite <- order_url_eq.
    destruct (Runtime.json_Marshal rt _) as [jsonBody|err];
      [|simpl; intros [H|[H|[]]]; discriminate H].
    destruct (Runtime.url_Parse rt (order_url creds)) as [u|err];
      [|simpl; intros [H|[H|[]]]; discriminate H].
    simpl. intros [H|[H|[H|[]]]]; try discriminate H.
    injection H as <- _. split; reflexivity.
Qed.

Lemma requests_target_account_endpoints_witness :
  ∃ u,
    Runtime.url_Parse demo_runtime_tradeable
      "https://api-fxpractice.oanda.com/v3/accounts/101-004/pricing" = inl u ∧
    URL.Base u = "https://api-fxpractice.oanda.com/v3/accounts/101-004/pricing".
Proof.
  destruct (proj1 (requests_target_account_endpoints demo_runtime_tradeable)
              demo_instruments [] demo_creds
              (pricing_request demo_runtime_tradeable demo_creds
                 (URL.mk (pricing_url demo_creds) "") demo_instruments)
              (ok_reply 200 "prices"))
    as (u & Hu & _).
  - rewrite getPrices_run. right. left. reflexivity.
  - rewrite getPrices_run. right. right. left. reflexivity.
  - exists u. split; [exact Hu|].
    simpl in Hu. injection Hu as <-. reflexivity.
Defined.

(** X20. No retries: a call of [getPrices] hands at most one request to
    the client, a [GET], and a call of [placeMarketOrder] at most one, a
    [POST], whatever the reply is, an error or a failure status
    included. [getPrices] never attempts an order and [placeMarketOrder]
    never fetches prices. *)
Theorem api_calls_send_at_most_one_request (rt : Runtime.t) :
  (∀ instruments h,
     (length (requests_sent (snd (getPrices rt instruments h))) ≤ 1)%nat ∧
     Forall (λ req, Request.Method req = "GET")
            (requests_sent (snd (getPrices rt instruments h))) ∧
     orders_attempted (snd (getPrices rt instruments h)) = []) ∧
  (∀ units instrument priceBound h,
     (length (requests_sent
                (snd (placeMarketOrder rt units instrument priceBound h))) ≤ 1)%nat ∧
     Forall (λ req, Request.Method req = "POST")
            (requests_sent
               (snd (placeMarketOrder rt units instrument priceBound h))) ∧
     prices_fetched (snd (placeMarketOrder rt units instrument priceBound h)) = []).
Proof.
  split.
  - intros instruments h.
    destruct (getPrices_outcomes rt instruments h)
      as [(r & err & _ & ->)|[(creds & err & ->)|(creds & req & reply & Hm & ->)]];
      simpl; repeat split; try lia; repeat constructor. exact Hm.
  - intros units instrument priceBound h.
    destruct (placeMarketOrder_outcomes rt units instrument priceBound h)
      as [(r & err & _ & ->)|[(creds & err & ->)|(creds & req & reply & Hm & ->)]];
      simpl; repeat split; try lia; repeat constructor. exact Hm.
Qed.
